(** * Binary option pricing engine: a shallow embedding

    The development embeds [src/models/pricing.py] (class
    [BinaryOptionPricer]) and [src/models/greeks.py] (class
    [GreeksAnalyzer]) and proves the properties the specification states
    about them.

    Number model.  A Python [float] is a value of [pyfloat]: an exact real
    number, [+inf], [-inf] or [nan].  The special values behave as IEEE 754
    prescribes (the source itself builds [float('inf')]); finite arithmetic
    is exact, so rounding, overflow, underflow and the sign of zero are not
    part of the model.  Arguments are Python floats; what scipy returns is a
    numpy scalar, which matters for division only: a Python float divided by
    zero raises [ZeroDivisionError] ([py_div]), a quotient with a numpy
    scalar in it does not ([np_div]).  Exceptions are values of [result]:
    [Raise e] is an exception that propagates to the caller. *)

From Stdlib Require Import Reals Lra Psatz ZArith String Ascii List Bool.
From Stdlib Require Import DecimalString Sorting.Sorted.
Import ListNotations.

Open Scope R_scope.

(** ** Python floats *)

Module PyFloat.

Inductive pyfloat : Type :=
| Finite (x : R)
| PosInf
| NegInf
| NaN.

(** Boolean views of the order on [R]. *)
Definition Rltb (x y : R) : bool := if Rlt_dec x y then true else false.
Definition Rleb (x y : R) : bool := if Rle_dec x y then true else false.
Definition Reqb (x y : R) : bool := if Req_dec_T x y then true else false.

(** Unary minus. *)
Definition fneg (a : pyfloat) : pyfloat :=
  match a with
  | Finite x => Finite (- x)
  | PosInf => NegInf
  | NegInf => PosInf
  | NaN => NaN
  end.

(** [abs]. *)
Definition fabs (a : pyfloat) : pyfloat :=
  match a with
  | Finite x => Finite (Rabs x)
  | PosInf | NegInf => PosInf
  | NaN => NaN
  end.

Definition fadd (a b : pyfloat) : pyfloat :=
  match a, b with
  | NaN, _ | _, NaN => NaN
  | Finite x, Finite y => Finite (x + y)
  | PosInf, NegInf | NegInf, PosInf => NaN
  | PosInf, _ | _, PosInf => PosInf
  | NegInf, _ | _, NegInf => NegInf
  end.

Definition fsub (a b : pyfloat) : pyfloat := fadd a (fneg b).

(** The infinity with the sign of [x]; [inf * 0] is [nan]. *)
Definition inf_of_sign (x : R) : pyfloat :=
  if Reqb x 0 then NaN else if Rltb 0 x then PosInf else NegInf.

Definition fmul (a b : pyfloat) : pyfloat :=
  match a, b with
  | NaN, _ | _, NaN => NaN
  | Finite x, Finite y => Finite (x * y)
  | Finite x, PosInf | PosInf, Finite x => inf_of_sign x
  | Finite x, NegInf | NegInf, Finite x => fneg (inf_of_sign x)
  | PosInf, PosInf | NegInf, NegInf => PosInf
  | PosInf, NegInf | NegInf, PosInf => NegInf
  end.

(** IEEE 754 division, which is what numpy scalars do: a finite number over
    zero is an infinity, [0/0] and [inf/inf] are [nan].  Zero is unsigned in
    the model and divides as [+0.0]. *)
Definition np_div (a b : pyfloat) : pyfloat :=
  match a, b with
  | NaN, _ | _, NaN => NaN
  | Finite x, Finite y =>
      if Reqb y 0 then inf_of_sign x else Finite (x / y)
  | Finite _, (PosInf | NegInf) => Finite 0
  | PosInf, Finite y => if Rleb 0 y then PosInf else NegInf
  | NegInf, Finite y => if Rleb 0 y then NegInf else PosInf
  | (PosInf | NegInf), (PosInf | NegInf) => NaN
  end.

(** [x ** 2]. *)
Definition fsquare (a : pyfloat) : pyfloat := fmul a a.

(** Comparisons: every comparison with [nan] is false. *)
Definition fltb (a b : pyfloat) : bool :=
  match a, b with
  | NaN, _ | _, NaN => false
  | Finite x, Finite y => Rltb x y
  | NegInf, (Finite _ | PosInf) => true
  | Finite _, PosInf => true
  | _, _ => false
  end.

Definition fleb (a b : pyfloat) : bool :=
  match a, b with
  | NaN, _ | _, NaN => false
  | Finite x, Finite y => Rleb x y
  | NegInf, _ => true
  | _, PosInf => true
  | _, _ => false
  end.

(** [a == b]: [nan] equals nothing, itself included. *)
Definition feqb (a b : pyfloat) : bool :=
  match a, b with
  | Finite x, Finite y => Reqb x y
  | PosInf, PosInf | NegInf, NegInf => true
  | _, _ => false
  end.

Definition fgtb (a b : pyfloat) : bool := fltb b a.
Definition fgeb (a b : pyfloat) : bool := fleb b a.

(** The builtins [max(a, b)] and [min(a, b)]: the first argument is kept
    unless the second is strictly greater (smaller). *)
Definition py_max (a b : pyfloat) : pyfloat := if fgtb b a then b else a.
Definition py_min (a b : pyfloat) : pyfloat := if fltb b a then b else a.

End PyFloat.
Export PyFloat.

Coercion Finite : R >-> pyfloat.

Declare Scope pyfloat_scope.
Delimit Scope pyfloat_scope with PF.
Bind Scope pyfloat_scope with pyfloat.
Infix "+" := fadd : pyfloat_scope.
Infix "-" := fsub : pyfloat_scope.
Infix "*" := fmul : pyfloat_scope.
Notation "- x" := (fneg x) : pyfloat_scope.
Infix "/." := np_div (at level 40, left associativity) : pyfloat_scope.
Infix "<?" := fltb (at level 70, no associativity) : pyfloat_scope.
Infix "<=?" := fleb (at level 70, no associativity) : pyfloat_scope.
Infix ">?" := fgtb (at level 70, no associativity) : pyfloat_scope.
Infix ">=?" := fgeb (at level 70, no associativity) : pyfloat_scope.

(** ** Exceptions *)

Inductive exception : Type :=
| ZeroDivisionError
| ValueError.

Inductive result (A : Type) : Type :=
| Ok (a : A)
| Raise (e : exception).
Arguments Ok {A} a.
Arguments Raise {A} e.

Definition bind {A B : Type} (m : result A) (k : A -> result B) : result B :=
  match m with
  | Ok a => k a
  | Raise e => Raise e
  end.

Notation "x <- m ;; k" := (bind m (fun x => k))
  (at level 61, m at next level, right associativity).
Notation "' p <- m ;; k" := (bind m (fun x => let p := x in k))
  (at level 61, p pattern, m at next level, right associativity).

(** Division of Python floats: [ZeroDivisionError] on a zero divisor,
    IEEE 754 otherwise. *)
Definition py_div (a b : pyfloat) : result pyfloat :=
  match b with
  | Finite y => if Reqb y 0 then Raise ZeroDivisionError else Ok (np_div a b)
  | _ => Ok (np_div a b)
  end.

(** [math.log]: [ValueError] outside the domain. *)
Definition math_log (a : pyfloat) : result pyfloat :=
  match a with
  | Finite x => if Rltb 0 x then Ok (Finite (ln x)) else Raise ValueError
  | PosInf => Ok PosInf
  | NegInf => Raise ValueError
  | NaN => Ok NaN
  end.

(** [math.sqrt]: [ValueError] on a negative argument. *)
Definition math_sqrt (a : pyfloat) : result pyfloat :=
  match a with
  | Finite x => if Rleb 0 x then Ok (Finite (sqrt x)) else Raise ValueError
  | PosInf => Ok PosInf
  | NegInf => Raise ValueError
  | NaN => Ok NaN
  end.

(** ** Number formatting

    The format specifications [:.0f] and [:.2f] of the description strings:
    the decimal expansion rounded half to even at the requested digit. *)

Module PyFormat.

Definition round_half_even (y : R) : Z :=
  let n := Int_part y in
  let f := frac_part y in
  if Rltb f (1 / 2) then n
  else if Rltb (1 / 2) f then (n + 1)%Z
  else if Z.even n then n else (n + 1)%Z.

Definition string_of_Z (z : Z) : string :=
  NilZero.string_of_int (Z.to_int z).

Fixpoint zeros (n : nat) : string :=
  match n with
  | O => EmptyString
  | Datatypes.S n' => String "0" (zeros n')
  end.

(** The digits of [m] with the decimal point [p] places from the right. *)
Definition place_point (p : nat) (digits : string) : string :=
  let digits := (zeros (Datatypes.S p - String.length digits) ++ digits)%string in
  let k := (String.length digits - p)%nat in
  match p with
  | O => digits
  | _ => (substring 0 k digits ++ "." ++ substring k p digits)%string
  end.

Definition format_f (p : nat) (a : pyfloat) : string :=
  match a with
  | NaN => "nan"
  | PosInf => "inf"
  | NegInf => "-inf"
  | Finite x =>
      let m := round_half_even (Rabs x * 10 ^ p) in
      ((if Rltb x 0 then "-" else EmptyString)
         ++ place_point p (string_of_Z m))%string
  end.

End PyFormat.
Export PyFormat.

(** ** scipy.stats.norm

    [norm.cdf] and [norm.pdf] belong to scipy, not to the repository: the
    engine is embedded over any pair of real functions.  On the special
    values scipy answers as below. *)

Class NormalDist : Type := {
  cdf : R -> R;
  pdf : R -> R
}.

Definition norm_cdf `{NormalDist} (a : pyfloat) : pyfloat :=
  match a with
  | Finite x => Finite (cdf x)
  | PosInf => Finite 1
  | NegInf => Finite 0
  | NaN => NaN
  end.

Definition norm_pdf `{NormalDist} (a : pyfloat) : pyfloat :=
  match a with
  | Finite x => Finite (pdf x)
  | PosInf | NegInf => Finite 0
  | NaN => NaN
  end.

(** ** src/models/pricing.py *)

Module Pricing.

Local Open Scope string_scope.
Local Open Scope pyfloat_scope.

Definition SECONDS_PER_YEAR : pyfloat := Finite (365.25 * 24 * 60 * 60).

(** [datetime] values; [datetime.now()] reads the clock, which every
    function that calls it receives as its argument [now]. *)
Definition datetime : Type := Z.

Record PricingResult : Type := {
  timestamp : datetime;
  spot_price : pyfloat;
  strike_price : pyfloat;
  time_to_expiry_seconds : pyfloat;
  volatility : pyfloat;
  up_price : pyfloat;
  down_price : pyfloat;
  delta : pyfloat;
  gamma : pyfloat;
  theta : pyfloat;
  vega : pyfloat;
  zone : string;
  zone_description : string
}.

(** The dictionary [calculate_greeks] returns: its four keys are fixed. *)
Record GreeksDict : Type := {
  g_delta : pyfloat;
  g_gamma : pyfloat;
  g_theta : pyfloat;
  g_vega : pyfloat
}.

Record BinaryOptionPricer : Type := {
  default_volatility : pyfloat
}.

(** [__init__(self, default_volatility=0.60)]. *)
Definition init (default_volatility : option pyfloat) : BinaryOptionPricer :=
  {| default_volatility :=
       match default_volatility with
       | Some v => v
       | None => Finite 0.60
       end |}.

Section Methods.

Context `{NormalDist}.
Variable self : BinaryOptionPricer.

(** [sigma if sigma is not None else self.default_volatility]. *)
Definition or_default (sigma : option pyfloat) : pyfloat :=
  match sigma with
  | Some v => v
  | None => default_volatility self
  end.

Definition _calculate_d1_d2 (S K T sigma r : pyfloat)
  : result (pyfloat * pyfloat) :=
  if T <=? 0 then
    if S >=? K then Ok (PosInf, PosInf) else Ok (NegInf, NegInf)
  else
    let sigma := if sigma <=? 0 then Finite 0.0001 else sigma in
    sqrt_T <- math_sqrt T ;;
    S_over_K <- py_div S K ;;
    log_S_K <- math_log S_over_K ;;
    d1 <- py_div (log_S_K + (r + 0.5 * fsquare sigma) * T) (sigma * sqrt_T) ;;
    let d2 := d1 - sigma * sqrt_T in
    Ok (d1, d2).

Definition binary_call_price (S K T_seconds : pyfloat)
  (sigma : option pyfloat) (r : pyfloat) : result pyfloat :=
  let sigma := or_default sigma in
  T <- py_div T_seconds SECONDS_PER_YEAR ;;
  if T <=? 0 then
    Ok (if S >=? K then Finite 1 else Finite 0)
  else
    d <- _calculate_d1_d2 S K T sigma r ;;
    let d2 := snd d in
    let price := norm_cdf d2 in
    Ok (py_max 0 (py_min 1 price)).

Definition binary_put_price (S K T_seconds : pyfloat)
  (sigma : option pyfloat) (r : pyfloat) : result pyfloat :=
  call <- binary_call_price S K T_seconds sigma r ;;
  Ok (1 - call).

(** Every quotient below has the numpy scalar [n_d2] in its numerator, so
    it is an IEEE 754 division: a zero divisor gives an infinity or [nan]
    (and a warning), not an exception. *)
Definition calculate_greeks (S K T_seconds : pyfloat)
  (sigma : option pyfloat) (r : pyfloat) : result GreeksDict :=
  let sigma := or_default sigma in
  T <- py_div T_seconds SECONDS_PER_YEAR ;;
  if T <=? 0 then
    Ok {| g_delta := 0; g_gamma := 0; g_theta := 0; g_vega := 0 |}
  else
    d <- _calculate_d1_d2 S K T sigma r ;;
    let d1 := fst d in
    let d2 := snd d in
    sqrt_T <- math_sqrt T ;;
    let n_d2 := norm_pdf d2 in
    let delta := n_d2 /. (S * sigma * sqrt_T) in
    let gamma := (- n_d2) * d1 /. (fsquare S * fsquare sigma * T) in
    let theta_annual := n_d2 * d1 /. (2 * T * sigma * sqrt_T) in
    let theta_per_second := (- theta_annual) /. SECONDS_PER_YEAR in
    let vega := (- n_d2) * d1 * sqrt_T /. sigma in
    Ok {| g_delta := delta; g_gamma := gamma;
          g_theta := theta_per_second; g_vega := vega |}.

Definition classify_zone (T_seconds S K : pyfloat) : result (string * string) :=
  q <- py_div (fabs (S - K)) K ;;
  let distance_pct := q * 100 in
  if T_seconds >? 180 then
    Ok ("linear_decay",
        "Normal theta decay zone. " ++ format_f 0 T_seconds
          ++ "s remaining, " ++ format_f 2 distance_pct ++ "% from strike.")%string
  else if (T_seconds >? 60) && (distance_pct >? 0.5) then
    Ok ("lock_in",
        "Lock-in zone. Price far from strike (" ++ format_f 2 distance_pct
          ++ "%), minimal movement expected.")%string
  else if (T_seconds <=? 60) && (distance_pct <=? 0.5) then
    Ok ("gamma_risk",
        "GAMMA RISK! " ++ format_f 0 T_seconds ++ "s remaining, only "
          ++ format_f 2 distance_pct ++ "% from strike. Extreme sensitivity.")%string
  else
    Ok ("transition",
        "Transition zone. " ++ format_f 0 T_seconds
          ++ "s remaining, " ++ format_f 2 distance_pct ++ "% from strike.")%string.

(** [price]: [now] is what [datetime.now()] returns when it is called. *)
Definition price (now : datetime) (spot strike ttl_seconds : pyfloat)
  (sigma : option pyfloat) (timestamp : option datetime)
  : result PricingResult :=
  let sigma := or_default sigma in
  let timestamp := match timestamp with Some t => t | None => now end in
  up_price <- binary_call_price spot strike ttl_seconds (Some sigma) 0 ;;
  down_price <- binary_put_price spot strike ttl_seconds (Some sigma) 0 ;;
  greeks <- calculate_greeks spot strike ttl_seconds (Some sigma) 0 ;;
  z <- classify_zone ttl_seconds spot strike ;;
  Ok {| timestamp := timestamp;
        spot_price := spot;
        strike_price := strike;
        time_to_expiry_seconds := ttl_seconds;
        volatility := sigma;
        up_price := up_price;
        down_price := down_price;
        delta := g_delta greeks;
        gamma := g_gamma greeks;
        theta := g_theta greeks;
        vega := g_vega greeks;
        zone := fst z;
        zone_description := snd z |}.

(** The body of [for _ in range(max_iterations)], [n] iterations left.
    [break] leaves the loop for the final [return None]. *)
Fixpoint implied_volatility_loop (n : nat)
  (market_price S K T_seconds : pyfloat) (is_call : bool)
  (tolerance sigma : pyfloat) : result (option pyfloat) :=
  match n with
  | O => Ok None
  | Datatypes.S n' =>
      price <- (if is_call then binary_call_price S K T_seconds (Some sigma) 0
                else binary_put_price S K T_seconds (Some sigma) 0) ;;
      greeks <- calculate_greeks S K T_seconds (Some sigma) 0 ;;
      let vega := g_vega greeks in
      let diff := price - market_price in
      if fabs diff <? tolerance then Ok (Some sigma)
      else if fabs vega <? 1e-10 then Ok None
      else
        let sigma := sigma - diff /. vega in
        let sigma := py_max 0.01 (py_min 5.0 sigma) in
        implied_volatility_loop n' market_price S K T_seconds is_call
          tolerance sigma
  end.

Definition implied_volatility (market_price S K T_seconds : pyfloat)
  (is_call : bool) (max_iterations : Z) (tolerance : pyfloat)
  : result (option pyfloat) :=
  if T_seconds <=? 0 then Ok None
  else
    implied_volatility_loop (Z.to_nat max_iterations)
      market_price S K T_seconds is_call tolerance 0.5.

End Methods.

(** Default arguments of [implied_volatility]. *)
Definition default_max_iterations : Z := 100.
Definition default_tolerance : pyfloat := Finite 1e-6.

End Pricing.

(** ** src/models/greeks.py *)

Module Greeks.

Import Pricing.
Local Open Scope string_scope.
Local Open Scope pyfloat_scope.

Record GreeksSnapshot : Type := {
  spot : pyfloat;
  strike : pyfloat;
  ttl_seconds : pyfloat;
  snap_volatility : pyfloat;
  snap_up_price : pyfloat;
  snap_down_price : pyfloat;
  delta_up : pyfloat;
  delta_down : pyfloat;
  gamma_up : pyfloat;
  gamma_down : pyfloat;
  theta_up : pyfloat;
  theta_down : pyfloat;
  vega_up : pyfloat;
  vega_down : pyfloat;
  vanna : option pyfloat;
  charm : option pyfloat
}.

(** The dictionary [risk_profile] returns. *)
Record RiskProfile : Type := {
  rp_zone : string;
  rp_zone_description : string;
  rp_moneyness : string;
  rp_distance_to_strike_pct : pyfloat;
  rp_up_price : pyfloat;
  rp_down_price : pyfloat;
  rp_delta : pyfloat;
  rp_dollar_delta : pyfloat;
  rp_gamma : pyfloat;
  rp_theta_per_second : pyfloat;
  rp_theta_per_minute : pyfloat;
  rp_vega : pyfloat;
  rp_gamma_risk_score : pyfloat;
  rp_recommendation : string
}.

(** The dictionary [delta_hedge_ratio] returns. *)
Record HedgeSummary : Type := {
  position_size : pyfloat;
  unit_delta : pyfloat;
  position_delta : pyfloat;
  btc_to_hedge : pyfloat;
  hedge_value_usd : pyfloat;
  gamma_exposure : pyfloat;
  rebalance_needed_per_dollar : pyfloat
}.

Record GreeksAnalyzer : Type := {
  pricer : BinaryOptionPricer
}.

(** [__init__(self, pricer=None)]. *)
Definition init (pricer : option BinaryOptionPricer) : GreeksAnalyzer :=
  {| pricer :=
       match pricer with
       | Some p => p
       | None => Pricing.init None
       end |}.

Section Methods.

Context `{NormalDist}.
Variable self : GreeksAnalyzer.

Definition full_greeks (spot strike ttl_seconds : pyfloat)
  (sigma : option pyfloat) : result GreeksSnapshot :=
  let sigma := or_default (pricer self) sigma in
  up_price <- binary_call_price (pricer self) spot strike ttl_seconds (Some sigma) 0 ;;
  down_price <- binary_put_price (pricer self) spot strike ttl_seconds (Some sigma) 0 ;;
  greeks_up <- calculate_greeks (pricer self) spot strike ttl_seconds (Some sigma) 0 ;;
  Ok {| spot := spot;
        strike := strike;
        ttl_seconds := ttl_seconds;
        snap_volatility := sigma;
        snap_up_price := up_price;
        snap_down_price := down_price;
        delta_up := g_delta greeks_up;
        delta_down := - g_delta greeks_up;
        gamma_up := g_gamma greeks_up;
        gamma_down := - g_gamma greeks_up;
        theta_up := g_theta greeks_up;
        theta_down := - g_theta greeks_up;
        vega_up := g_vega greeks_up;
        vega_down := - g_vega greeks_up;
        vanna := None;
        charm := None |}.

Definition _get_recommendation (zone : string)
  (distance_pct ttl_seconds gamma_risk_score : pyfloat) : string :=
  if gamma_risk_score >? 70 then
    "HIGH RISK: Extreme gamma exposure. Avoid new positions."
  else if String.eqb zone "lock_in" then
    let direction := if distance_pct >? 0 then "Up" else "Down" in
    ("LOCK-IN: " ++ direction ++ " likely to win. Low risk of reversal.")%string
  else if String.eqb zone "linear_decay" then
    "NORMAL: Standard theta decay. Greeks behave predictably."
  else
    "TRANSITION: Monitor closely for zone changes.".

Definition risk_profile (spot strike ttl_seconds : pyfloat)
  (sigma : option pyfloat) : result RiskProfile :=
  greeks <- full_greeks spot strike ttl_seconds sigma ;;
  z <- classify_zone ttl_seconds spot strike ;;
  let zone := fst z in
  let zone_desc := snd z in
  q <- py_div (spot - strike) strike ;;
  let distance_pct := q * 100 in
  let moneyness := if spot >=? strike then "ITM"%string else "OTM"%string in
  let dollar_delta := delta_up greeks in
  let theta_1min := theta_up greeks * 60 in
  t <- py_div ttl_seconds 900 ;;
  let time_factor := py_max 0 (1 - t) in
  d <- py_div (fabs distance_pct) 1 ;;
  let strike_factor := py_max 0 (1 - d) in
  let gamma_risk_score := time_factor * strike_factor * 100 in
  Ok {| rp_zone := zone;
        rp_zone_description := zone_desc;
        rp_moneyness := moneyness;
        rp_distance_to_strike_pct := distance_pct;
        rp_up_price := snap_up_price greeks;
        rp_down_price := snap_down_price greeks;
        rp_delta := delta_up greeks;
        rp_dollar_delta := dollar_delta;
        rp_gamma := gamma_up greeks;
        rp_theta_per_second := theta_up greeks;
        rp_theta_per_minute := theta_1min;
        rp_vega := vega_up greeks;
        rp_gamma_risk_score := gamma_risk_score;
        rp_recommendation :=
          _get_recommendation zone distance_pct ttl_seconds gamma_risk_score |}.

Definition delta_hedge_ratio (position_size spot strike ttl_seconds : pyfloat)
  (sigma : option pyfloat) : result HedgeSummary :=
  greeks <- full_greeks spot strike ttl_seconds sigma ;;
  let position_delta := position_size * delta_up greeks in
  let btc_to_hedge := - position_delta in
  let hedge_value := btc_to_hedge * spot in
  Ok {| position_size := position_size;
        unit_delta := delta_up greeks;
        position_delta := position_delta;
        btc_to_hedge := btc_to_hedge;
        hedge_value_usd := hedge_value;
        gamma_exposure := position_size * gamma_up greeks;
        rebalance_needed_per_dollar := fabs (position_size * gamma_up greeks) |}.

End Methods.

End Greeks.

(** ** The standard normal distribution

    The instance of [NormalDist] that scipy computes: the density
    [exp(-x^2/2)/sqrt(2 pi)] and its distribution function, one half plus
    the integral of the density from 0 to [x]. *)

Module StdNormal.

Definition phi (x : R) : R := exp (- (x * x) / 2) / sqrt (2 * PI).

Lemma phi_continuity : continuity phi.
Proof. unfold phi. reg. Qed.

Definition phi_integrable (a b : R) : Riemann_integrable phi a b :=
  match Rle_dec a b with
  | left Hab =>
      continuity_implies_RiemannInt Hab (fun x _ => phi_continuity x)
  | right Hba =>
      RiemannInt_P1
        (continuity_implies_RiemannInt
           (Rlt_le _ _ (Rnot_le_lt _ _ Hba)) (fun x _ => phi_continuity x))
  end.

Definition Phi (x : R) : R := 1 / 2 + RiemannInt (phi_integrable 0 x).

#[export] Instance std_normal : NormalDist := {| cdf := Phi; pdf := phi |}.

End StdNormal.

(** ** Vocabulary of the statements

    The formulas of the source on real numbers, and the notions the
    theorems are stated with. *)

Import Pricing.

(** The volatility [_calculate_d1_d2] works with. *)
Definition eff_sigma (sigma : R) : R := if Rleb sigma 0 then 0.0001 else sigma.

(** Seconds to years. *)
Definition years (T_seconds : R) : R := T_seconds / (365.25 * 24 * 60 * 60).

Definition d1_of (S K T sigma r : R) : R :=
  (ln (S / K) + (r + 0.5 * (sigma * sigma)) * T) / (sigma * sqrt T).

Definition d2_of (S K T sigma r : R) : R :=
  d1_of S K T sigma r - sigma * sqrt T.

(** The value of the call before expiry. *)
Definition call_value `{NormalDist} (S K T_seconds sigma r : R) : R :=
  Rmax 0 (Rmin 1 (cdf (d2_of S K (years T_seconds) (eff_sigma sigma) r))).

(** A result rounded with the relative error [delta]. *)
Definition rounded (delta x : R) : R := x * (1 + delta).

(** The label of [zone, zone_desc = classify_zone(...)]. *)
Definition zone_label (T_seconds S K : pyfloat) : result string :=
  z <- classify_zone T_seconds S K ;; Ok (fst z).

(** Distance to the strike, in percent. *)
Definition distance_pct (S K : R) : R := Rabs (S - K) / K * 100.

Section SolverVocabulary.

Context `{NormalDist}.
Variable self : BinaryOptionPricer.



End SolverVocabulary.



(** * Properties *)

(** ** Facts about the number model *)

Section FloatFacts.

Lemma Rltb_true x y : x < y -> Rltb x y = true.
Proof. intros Hxy. unfold Rltb. destruct (Rlt_dec x y); [reflexivity | contradiction]. Qed.

Lemma Rltb_false x y : y <= x -> Rltb x y = false.
Proof. intros Hxy. unfold Rltb. destruct (Rlt_dec x y); [lra | reflexivity]. Qed.

Lemma Rleb_true x y : x <= y -> Rleb x y = true.
Proof. intros Hxy. unfold Rleb. destruct (Rle_dec x y); [reflexivity | contradiction]. Qed.

Lemma Rleb_false x y : y < x -> Rleb x y = false.
Proof. intros Hxy. unfold Rleb. destruct (Rle_dec x y); [lra | reflexivity]. Qed.

Lemma Reqb_true x y : x = y -> Reqb x y = true.
Proof. intros Hxy. unfold Reqb. destruct (Req_dec_T x y); [reflexivity | contradiction]. Qed.

Lemma Reqb_false x y : x <> y -> Reqb x y = false.
Proof. intros Hxy. unfold Reqb. destruct (Req_dec_T x y); [contradiction | reflexivity]. Qed.

Lemma Rltb_spec x y : Bool.reflect (x < y) (Rltb x y).
Proof. unfold Rltb. destruct (Rlt_dec x y); constructor; assumption. Qed.

Lemma Rleb_spec x y : Bool.reflect (x <= y) (Rleb x y).
Proof. unfold Rleb. destruct (Rle_dec x y); constructor; assumption. Qed.

Lemma Reqb_spec x y : Bool.reflect (x = y) (Reqb x y).
Proof. unfold Reqb. destruct (Req_dec_T x y); constructor; assumption. Qed.

Lemma inf_of_sign_pos (x : R) : 0 < x -> inf_of_sign x = PosInf.
Proof.
  intros Hx. unfold inf_of_sign.
  rewrite Reqb_false by lra. now rewrite Rltb_true.
Qed.

Lemma inf_of_sign_neg (x : R) : x < 0 -> inf_of_sign x = NegInf.
Proof.
  intros Hx. unfold inf_of_sign.
  rewrite Reqb_false by lra. now rewrite Rltb_false by lra.
Qed.

(** A Python division by a finite non-zero number does not raise. *)
Lemma py_div_finite (a : pyfloat) (y : R) :
  y <> 0 -> py_div a (Finite y) = Ok (np_div a (Finite y)).
Proof. intros Hy. unfold py_div. now rewrite Reqb_false. Qed.

Lemma np_div_finite (x y : R) :
  y <> 0 -> np_div (Finite x) (Finite y) = Finite (x / y).
Proof. intros Hy. unfold np_div. now rewrite Reqb_false. Qed.

(** The clamp [max(0.0, min(1.0, p))] of a finite number. *)
Lemma clamp_finite (p : R) :
  py_max (Finite 0) (py_min (Finite 1) (Finite p)) = Finite (Rmax 0 (Rmin 1 p)).
Proof.
  unfold py_max, py_min, fgtb, fltb, Rmax, Rmin.
  destruct (Rltb_spec p 1) as [Hp1 | Hp1]; simpl;
    destruct (Rle_dec 1 p) as [H1p | H1p]; try lra.
  - destruct (Rltb_spec 0 p), (Rle_dec 0 p); try lra; try reflexivity.
    f_equal; lra.
  - destruct (Rltb_spec 0 1), (Rle_dec 0 1); try lra; reflexivity.
Qed.

(** The clamp of any float, [nan] and the infinities included, is a finite
    number of the unit interval. *)
Lemma clamp_range (p : pyfloat) :
  exists c : R,
    py_max (Finite 0) (py_min (Finite 1) p) = Finite c /\ 0 <= c <= 1.
Proof.
  destruct p as [x | | |].
  - exists (Rmax 0 (Rmin 1 x)). split; [apply clamp_finite |].
    unfold Rmax, Rmin.
    destruct (Rle_dec 1 x); destruct (Rle_dec 0 _); lra.
  - exists 1. split; [| lra].
    unfold py_max, py_min; simpl. now rewrite Rltb_true by lra.
  - exists 0. split; [| lra]. reflexivity.
  - exists 1. split; [| lra].
    unfold py_max, py_min; simpl. now rewrite Rltb_true by lra.
Qed.


End FloatFacts.

(** ** The engine on finite inputs before expiry *)

Lemma eff_sigma_pos sigma : 0 < eff_sigma sigma.
Proof. unfold eff_sigma. destruct (Rleb_spec sigma 0); lra. Qed.

Lemma eff_sigma_id sigma : 0 < sigma -> eff_sigma sigma = sigma.
Proof. intros Hs. unfold eff_sigma. now rewrite Rleb_false. Qed.

Lemma eff_sigma_eps sigma : sigma <= 0 -> eff_sigma sigma = 0.0001.
Proof. intros Hs. unfold eff_sigma. now rewrite Rleb_true. Qed.

Lemma years_pos T_seconds : 0 < T_seconds -> 0 < years T_seconds.
Proof. intros HT. unfold years. apply Rdiv_lt_0_compat; lra. Qed.

Lemma to_years (a : pyfloat) :
  py_div a SECONDS_PER_YEAR = Ok (np_div a SECONDS_PER_YEAR).
Proof. unfold SECONDS_PER_YEAR. apply py_div_finite. lra. Qed.

Lemma to_years_finite (T_seconds : R) :
  py_div (Finite T_seconds) SECONDS_PER_YEAR = Ok (Finite (years T_seconds)).
Proof.
  rewrite to_years. unfold SECONDS_PER_YEAR, years.
  rewrite np_div_finite by lra. reflexivity.
Qed.

(** The substitution [if sigma <= 0: sigma = 0.0001] on a finite number. *)
Lemma sigma_floor_finite (sigma : R) :
  (if Rleb sigma 0 then Finite 0.0001 else Finite sigma)
  = Finite (eff_sigma sigma).
Proof. unfold eff_sigma. destruct (Rleb sigma 0); reflexivity. Qed.

Lemma calculate_d1_d2_finite (S K T sigma r : R) :
  0 < S -> 0 < K -> 0 < T ->
  _calculate_d1_d2 (Finite S) (Finite K) (Finite T) (Finite sigma) (Finite r)
  = Ok (Finite (d1_of S K T (eff_sigma sigma) r),
        Finite (d2_of S K T (eff_sigma sigma) r)).
Proof.
  intros HS HK HT.
  assert (HSK : 0 < S / K) by (apply Rdiv_lt_0_compat; assumption).
  assert (Hsq : 0 < sqrt T) by (apply sqrt_lt_R0; assumption).
  pose proof (eff_sigma_pos sigma) as Hsg.
  unfold _calculate_d1_d2. cbn [fleb].
  rewrite (Rleb_false T 0) by assumption.
  rewrite sigma_floor_finite.
  cbn [math_sqrt bind]. rewrite (Rleb_true 0 T) by lra. cbn [bind].
  rewrite py_div_finite by lra. rewrite np_div_finite by lra. cbn [bind math_log].
  rewrite Rltb_true by assumption. cbn [bind fsquare fmul fadd fsub fneg].
  rewrite py_div_finite by nra.
  rewrite np_div_finite by nra. cbn [bind].
  unfold d2_of, d1_of. do 2 f_equal.
Qed.

(** At the money and at rate 0, [d2 = - sigma * sqrt(T) / 2]. *)
Lemma d2_at_the_money (K T sigma : R) :
  0 < K -> 0 < T -> 0 < sigma ->
  d2_of K K T sigma 0 = - (0.5 * sigma * sqrt T).
Proof.
  intros HK HT Hsigma. unfold d2_of, d1_of.
  replace (K / K) with 1 by (field; lra). rewrite ln_1.
  assert (Hq : 0 < sqrt T) by now apply sqrt_lt_R0.
  pose proof (sqrt_sqrt T ltac:(lra)) as Hqq.
  remember (sqrt T) as q eqn:Eq. clear Eq. subst T.
  replace 0.5 with (/ 2) by lra. field. lra.
Qed.

(** And [d1 = sigma * sqrt(T) / 2]. *)
Lemma d1_at_the_money (K T sigma : R) :
  0 < K -> 0 < T -> 0 < sigma ->
  d1_of K K T sigma 0 = 0.5 * sigma * sqrt T.
Proof.
  intros HK HT Hsigma.
  pose proof (d2_at_the_money K T sigma HK HT Hsigma) as Hd2.
  unfold d2_of in Hd2. lra.
Qed.

(** The quotient [abs(S - K) / K] of [classify_zone]. *)
Lemma classify_zone_distance (S K : R) :
  K <> 0 ->
  py_div (fabs (fsub (Finite S) (Finite K))) (Finite K)
  = Ok (Finite (Rabs (S - K) / K)).
Proof.
  intros HK. rewrite py_div_finite by assumption. cbn [fsub fneg fadd fabs].
  rewrite np_div_finite by assumption. reflexivity.
Qed.

Section FiniteInputs.

Context `{NormalDist}.
Variable self : BinaryOptionPricer.


Lemma binary_call_price_finite (S K T_seconds sigma r : R) :
  0 < S -> 0 < K -> 0 < T_seconds ->
  binary_call_price self (Finite S) (Finite K) (Finite T_seconds)
    (Some (Finite sigma)) (Finite r)
  = Ok (Finite (call_value S K T_seconds sigma r)).
Proof.
  intros HS HK HT. pose proof (years_pos _ HT) as HTy.
  unfold binary_call_price. cbn [or_default].
  rewrite to_years_finite. cbn [bind fleb].
  rewrite Rleb_false by assumption.
  rewrite calculate_d1_d2_finite by assumption.
  cbn [bind snd norm_cdf]. rewrite clamp_finite. reflexivity.
Qed.

Lemma binary_put_price_finite (S K T_seconds sigma r : R) :
  0 < S -> 0 < K -> 0 < T_seconds ->
  binary_put_price self (Finite S) (Finite K) (Finite T_seconds)
    (Some (Finite sigma)) (Finite r)
  = Ok (Finite (1 - call_value S K T_seconds sigma r)).
Proof.
  intros HS HK HT. unfold binary_put_price.
  rewrite binary_call_price_finite by assumption. reflexivity.
Qed.

(** The Greeks before expiry.  The divisors hold the caller's [sigma], not
    the volatility [_calculate_d1_d2] worked with. *)
Lemma calculate_greeks_finite (S K T_seconds sigma r : R) :
  0 < S -> 0 < K -> 0 < T_seconds ->
  let T := years T_seconds in
  let d1 := d1_of S K T (eff_sigma sigma) r in
  let n_d2 := pdf (d2_of S K T (eff_sigma sigma) r) in
  calculate_greeks self (Finite S) (Finite K) (Finite T_seconds)
    (Some (Finite sigma)) (Finite r)
  = Ok {| g_delta := np_div (Finite n_d2) (Finite (S * sigma * sqrt T));
          g_gamma :=
            np_div (Finite (- n_d2 * d1))
              (Finite (S * S * (sigma * sigma) * T));
          g_theta :=
            np_div
              (fneg (np_div (Finite (n_d2 * d1))
                       (Finite (2 * T * sigma * sqrt T))))
              SECONDS_PER_YEAR;
          g_vega := np_div (Finite (- n_d2 * d1 * sqrt T)) (Finite sigma) |}.
Proof.
  intros HS HK HT T d1 n_d2. pose proof (years_pos _ HT) as HTy.
  unfold calculate_greeks. cbn [or_default].
  rewrite to_years_finite. cbn [bind fleb].
  rewrite Rleb_false by assumption.
  rewrite calculate_d1_d2_finite by assumption.
  cbn [bind fst snd math_sqrt]. rewrite Rleb_true by lra.
  cbn [bind norm_pdf fmul fneg fsquare]. reflexivity.
Qed.

End FiniteInputs.

(** ** The standard normal instance *)

Section StdNormalFacts.

Import StdNormal.

Lemma sqrt_2PI_ge_1 : 1 <= sqrt (2 * PI).
Proof.
  rewrite <- sqrt_1 at 1. apply sqrt_le_1_alt.
  pose proof PI2_3_2 as Hpi. unfold PI2 in Hpi. lra.
Qed.

Lemma phi_pos (x : R) : 0 < phi x.
Proof.
  unfold phi. apply Rdiv_lt_0_compat; [apply exp_pos |].
  pose proof sqrt_2PI_ge_1. lra.
Qed.

Lemma phi_le_1 (x : R) : phi x <= 1.
Proof.
  unfold phi. pose proof sqrt_2PI_ge_1 as Hs.
  assert (He : exp (- (x * x) / 2) <= 1).
  { rewrite <- exp_0. destruct (Req_dec x 0) as [-> | Hx].
    - right. f_equal. lra.
    - left. apply exp_increasing. nra. }
  pose proof (exp_pos (- (x * x) / 2)) as Hp.
  apply Rle_trans with (exp (- (x * x) / 2) / 1); [| lra].
  unfold Rdiv. apply Rmult_le_compat_l; [lra |].
  apply Rinv_le_contravar; lra.
Qed.

(** The increment of [Phi] is the integral of the density. *)
Lemma Phi_increment (x y : R) :
  Phi y - Phi x = RiemannInt (phi_integrable x y).
Proof.
  unfold Phi.
  rewrite <- (RiemannInt_P26 (phi_integrable 0 x) (phi_integrable x y)
                (phi_integrable 0 y)).
  lra.
Qed.

Lemma Phi_mono (x y : R) : x <= y -> Phi x <= Phi y.
Proof.
  intros Hxy. apply Rminus_le. apply Ropp_le_cancel.
  replace (- (Phi x - Phi y)) with (Phi y - Phi x) by lra.
  rewrite Ropp_0, Phi_increment.
  assert (Hc : Riemann_integrable (fct_cte 0) x y) by apply RiemannInt_P14.
  pose proof (RiemannInt_P19 Hc (phi_integrable x y) Hxy) as Hint.
  rewrite RiemannInt_P15, Rmult_0_l in Hint. apply Hint.
  intros z _. unfold fct_cte. left. apply phi_pos.
Qed.

(** [Phi] moves no faster than its argument: the density is at most 1. *)
Lemma Phi_lipschitz (x y : R) : x <= y -> Phi y - Phi x <= y - x.
Proof.
  intros Hxy. rewrite Phi_increment.
  assert (Hc : Riemann_integrable (fct_cte 1) x y) by apply RiemannInt_P14.
  pose proof (RiemannInt_P19 (phi_integrable x y) Hc Hxy) as Hint.
  rewrite RiemannInt_P15, Rmult_1_l in Hint. apply Hint.
  intros z _. unfold fct_cte. apply phi_le_1.
Qed.

Lemma Phi_0 : Phi 0 = 1 / 2.
Proof. unfold Phi. rewrite RiemannInt_P9. lra. Qed.

End StdNormalFacts.

(** ** Put-call parity (C1) *)

Section Parity.

Context `{NormalDist}.
Variable self : BinaryOptionPricer.


End Parity.

(** The bound of C1 on a machine: when the subtraction [1.0 - call] and the
    sum [call + put] are each rounded with a relative error of at most
    [2^-53], as binary64 does on the unit interval, the sum still stays
    within 1e-9 of 1. *)
Lemma parity_survives_rounding (c d1 d2 : R) :
  0 <= c <= 1 -> Rabs d1 <= / 2 ^ 53 -> Rabs d2 <= / 2 ^ 53 ->
  Rabs (rounded d2 (c + rounded d1 (1 - c)) - 1) <= 1e-9.
Proof.
  intros Hc H1 H2. unfold rounded.
  assert (Hu : / 2 ^ 53 <= 1e-10).
  { apply Rle_trans with (/ 10 ^ 10); [| lra].
    apply Rinv_le_contravar; [lra |]. lra. }
  pose proof (Rle_abs d1) as H1a. pose proof (Rle_abs (- d1)) as H1b.
  pose proof (Rle_abs d2) as H2a. pose proof (Rle_abs (- d2)) as H2b.
  rewrite Rabs_Ropp in H1b, H2b.
  assert (Hd1 : -1e-10 <= d1 <= 1e-10) by lra.
  assert (Hd2 : -1e-10 <= d2 <= 1e-10) by lra.
  clear H1 H2 H1a H1b H2a H2b Hu.
  set (e := (1 - c) * d1).
  assert (He : -1e-10 <= e <= 1e-10) by (unfold e; nra).
  replace ((c + (1 - c) * (1 + d1)) * (1 + d2) - 1)
    with (e + d2 + e * d2) by (unfold e; ring).
  apply Rabs_le. nra.
Qed.


(** ** Monotonicity in the spot (C8) *)

Section Monotone.

Context `{NormalDist}.
Variable self : BinaryOptionPricer.




End Monotone.


(** ** Negated Greeks of the down side (C9) and the sign of delta (C10) *)

(** A product of positive factors is not zero. *)
Ltac positive_product :=
  apply Rgt_not_eq, Rlt_gt;
  repeat (apply Rmult_lt_0_compat); solve [assumption | lra].

Section GreeksFacts.

Import Greeks.
Context `{NormalDist}.
Variable pricer_self : BinaryOptionPricer.
Variable self : GreeksAnalyzer.



(** Python's [==] agrees with the identity of C9 on every Greek that is
    not [nan]. *)
Lemma feqb_refl (a : pyfloat) : a <> NaN -> feqb a a = true.
Proof.
  destruct a as [x | | |]; intros Ha; try reflexivity.
  - now apply Reqb_true.
  - contradiction.
Qed.



(** Before expiry, on positive finite arguments, the four Greeks are finite
    numbers, so that the equalities of C9 are also what [==] answers. *)
Lemma full_greeks_down_eq_negated_up (S K T_seconds sigma : R) :
  0 < S -> 0 < K -> 0 < sigma -> 0 < T_seconds ->
  exists s : GreeksSnapshot,
    full_greeks self (Finite S) (Finite K) (Finite T_seconds)
      (Some (Finite sigma)) = Ok s /\
    feqb (delta_down s) (fneg (delta_up s)) = true /\
    feqb (gamma_down s) (fneg (gamma_up s)) = true /\
    feqb (vega_down s) (fneg (vega_up s)) = true /\
    feqb (theta_down s) (fneg (theta_up s)) = true.
Proof.
  intros HS HK Hsigma HT.
  pose proof (years_pos _ HT) as HTy.
  assert (Hsq : 0 < sqrt (years T_seconds)) by now apply sqrt_lt_R0.
  set (T := years T_seconds) in *.
  assert (Hd1 : S * sigma * sqrt T <> 0) by positive_product.
  assert (Hd2 : S * S * (sigma * sigma) * T <> 0) by positive_product.
  assert (Hd3 : 2 * T * sigma * sqrt T <> 0) by positive_product.
  unfold full_greeks. cbn [or_default].
  rewrite binary_call_price_finite, binary_put_price_finite by assumption.
  rewrite (calculate_greeks_finite (pricer self) S K T_seconds sigma 0)
    by assumption.
  fold T. cbn [bind]. eexists. split; [reflexivity |].
  cbn [delta_down delta_up gamma_down gamma_up vega_down vega_up
       theta_down theta_up g_delta g_gamma g_theta g_vega].
  unfold SECONDS_PER_YEAR.
  rewrite (np_div_finite _ _ Hd1), (np_div_finite _ _ Hd2),
    (np_div_finite _ _ Hd3).
  rewrite (np_div_finite _ sigma) by lra. cbn [fneg].
  rewrite np_div_finite by lra. cbn [fneg feqb].
  rewrite !Reqb_true by reflexivity. repeat split.
Qed.

End GreeksFacts.



(** ** Settlement at expiry (C4) *)

Section Expiry.

Context `{NormalDist}.
Variable self : BinaryOptionPricer.

(** A time to expiry that is not positive stays so in years. *)
Lemma expired_in_years (T_seconds : pyfloat) :
  fleb T_seconds (Finite 0) = true ->
  exists T : pyfloat,
    py_div T_seconds SECONDS_PER_YEAR = Ok T /\ fleb T (Finite 0) = true.
Proof.
  intros HT. rewrite to_years. eexists. split; [reflexivity |].
  unfold SECONDS_PER_YEAR.
  destruct T_seconds as [t | | |]; cbn in HT; try discriminate.
  - rewrite np_div_finite by lra. cbn.
    destruct (Rleb_spec t 0) as [Ht | Ht]; [| discriminate].
    apply Rleb_true.
    replace (365.25 * 24 * 60 * 60) with 31557600 by lra. lra.
  - cbn. rewrite Rleb_true by lra. reflexivity.
Qed.

(** C4.  At or after expiry the call pays 1 when the spot has reached the
    strike and 0 otherwise, and the put pays the rest, for every volatility
    (given or defaulted) and rate.  The payoff is the same for every
    [NormalDist]: neither [norm.cdf] nor [norm.pdf] takes part in it. *)
Theorem settled_at_expiry (S K T_seconds : pyfloat)
  (sigma : option pyfloat) (r : pyfloat) :
  fleb T_seconds (Finite 0) = true ->
  binary_call_price self S K T_seconds sigma r
  = Ok (if fgeb S K then Finite 1 else Finite 0) /\
  binary_put_price self S K T_seconds sigma r
  = Ok (if fgeb S K then Finite 0 else Finite 1).
Proof.
  intros HT. destruct (expired_in_years _ HT) as (T & HTy & HT0).
  assert (Hcall : binary_call_price self S K T_seconds sigma r
                  = Ok (if fgeb S K then Finite 1 else Finite 0)).
  { unfold binary_call_price. rewrite HTy. cbn [bind]. now rewrite HT0. }
  split; [exact Hcall |].
  unfold binary_put_price. rewrite Hcall. cbn [bind].
  destruct (fgeb S K); cbn; do 2 f_equal; lra.
Qed.

End Expiry.

(** C4 at expiry, with the spot on the strike: the call pays 1. *)
Lemma settled_at_expiry_witness :
  binary_call_price (H := StdNormal.std_normal) (Pricing.init None)
    (Finite 95000) (Finite 95000) (Finite 0) (Some (Finite 0.6)) (Finite 0)
  = Ok (Finite 1) /\
  binary_put_price (H := StdNormal.std_normal) (Pricing.init None)
    (Finite 95000) (Finite 95000) (Finite 0) (Some (Finite 0.6)) (Finite 0)
  = Ok (Finite 0).
Proof.
  assert (Hge : fgeb (Finite 95000) (Finite 95000) = true)
    by (apply Rleb_true; lra).
  pose proof (settled_at_expiry (H := StdNormal.std_normal) (Pricing.init None)
                (Finite 95000) (Finite 95000) (Finite 0)
                (Some (Finite 0.6)) (Finite 0) (Rleb_true 0 0 (Rle_refl 0)))
    as Hsettled.
  rewrite Hge in Hsettled. exact Hsettled.
Defined.

(** ** Zone classification (C5) *)

Section Zones.

(** The four branches, in the order the source tests them. *)
Lemma zone_label_cases (T_seconds S K : R) :
  K <> 0 ->
  exists z : string,
    zone_label (Finite T_seconds) (Finite S) (Finite K) = Ok z /\
    (180 < T_seconds -> z = "linear_decay"%string) /\
    (T_seconds <= 180 -> 60 < T_seconds -> 0.5 < distance_pct S K ->
     z = "lock_in"%string) /\
    (T_seconds <= 60 -> distance_pct S K <= 0.5 -> z = "gamma_risk"%string) /\
    (T_seconds <= 180 ->
     ~ (60 < T_seconds /\ 0.5 < distance_pct S K) ->
     ~ (T_seconds <= 60 /\ distance_pct S K <= 0.5) ->
     z = "transition"%string).
Proof.
  intros HK. unfold zone_label, classify_zone.
  rewrite classify_zone_distance by assumption.
  cbn [bind fmul fgtb fltb fleb]. fold (distance_pct S K).
  destruct (Rltb_spec 180 T_seconds) as [H180 | H180].
  { eexists. split; [reflexivity |]. repeat split; intros; try reflexivity; lra. }
  destruct (Rltb_spec 60 T_seconds) as [H60 | H60];
    destruct (Rltb_spec 0.5 (distance_pct S K)) as [Hd | Hd]; cbn [andb].
  - eexists. split; [reflexivity |].
    repeat split; intros; try reflexivity; try lra; tauto.
  - rewrite (Rleb_false T_seconds 60) by assumption. cbn [andb].
    eexists. split; [reflexivity |]. repeat split; intros; try reflexivity; lra.
  - rewrite (Rleb_true T_seconds 60) by lra.
    rewrite (Rleb_false (distance_pct S K) 0.5) by assumption. cbn [andb].
    eexists. split; [reflexivity |]. repeat split; intros; try reflexivity; lra.
  - rewrite (Rleb_true T_seconds 60) by lra.
    rewrite (Rleb_true (distance_pct S K) 0.5) by lra. cbn [andb].
    eexists. split; [reflexivity |].
    repeat split; intros; try reflexivity; try lra; tauto.
Qed.

Lemma distance_pct_scaled (K c : R) :
  0 < K -> 1 <= c -> distance_pct (K * c) K = (c - 1) * 100.
Proof.
  intros HK Hc. unfold distance_pct.
  replace (K * c - K) with (K * (c - 1)) by ring.
  rewrite Rabs_pos_eq by nra. field. lra.
Qed.

(** C5.  For a positive strike [classify_zone] returns the label of the
    first branch that matches, in the order: more than 180 seconds left,
    linear_decay; else more than 60 seconds and more than 0.5 percent from
    the strike, lock_in; else at most 60 seconds and at most 0.5 percent,
    gamma_risk; else transition.  The four boundary cases of the
    specification follow. *)
Theorem classify_zone_first_match (K : R) :
  0 < K ->
  (forall T_seconds S : R,
      exists z : string,
        zone_label (Finite T_seconds) (Finite S) (Finite K) = Ok z /\
        (180 < T_seconds -> z = "linear_decay"%string) /\
        (T_seconds <= 180 -> 60 < T_seconds -> 0.5 < distance_pct S K ->
         z = "lock_in"%string) /\
        (T_seconds <= 60 -> distance_pct S K <= 0.5 ->
         z = "gamma_risk"%string) /\
        (T_seconds <= 180 ->
         ~ (60 < T_seconds /\ 0.5 < distance_pct S K) ->
         ~ (T_seconds <= 60 /\ distance_pct S K <= 0.5) ->
         z = "transition"%string)) /\
  zone_label (Finite 181) (Finite K) (Finite K) = Ok "linear_decay"%string /\
  zone_label (Finite 120) (Finite (K * 1.01)) (Finite K)
  = Ok "lock_in"%string /\
  zone_label (Finite 30) (Finite (K * 1.001)) (Finite K)
  = Ok "gamma_risk"%string /\
  zone_label (Finite 90) (Finite (K * 1.002)) (Finite K)
  = Ok "transition"%string.
Proof.
  intros HK. assert (HK0 : K <> 0) by lra.
  split; [intros T_seconds S; now apply zone_label_cases |].
  pose proof (distance_pct_scaled K 1.01 HK) as Hd1.
  pose proof (distance_pct_scaled K 1.001 HK) as Hd2.
  pose proof (distance_pct_scaled K 1.002 HK) as Hd3.
  repeat split.
  - destruct (zone_label_cases 181 K K HK0) as (z & -> & Hz & _).
    rewrite Hz by lra. reflexivity.
  - destruct (zone_label_cases 120 (K * 1.01) K HK0) as (z & -> & _ & Hz & _).
    rewrite Hz by lra. reflexivity.
  - destruct (zone_label_cases 30 (K * 1.001) K HK0)
      as (z & -> & _ & _ & Hz & _).
    rewrite Hz by lra. reflexivity.
  - destruct (zone_label_cases 90 (K * 1.002) K HK0)
      as (z & -> & _ & _ & _ & Hz).
    rewrite Hz by lra. reflexivity.
Qed.

End Zones.

(** C5 at the strike 95000 of the specification: 120 seconds left and one
    percent above the strike is lock_in. *)
Lemma classify_zone_first_match_witness :
  zone_label (Finite 120) (Finite (95000 * 1.01)) (Finite 95000)
  = Ok "lock_in"%string.
Proof.
  apply (classify_zone_first_match 95000). lra.
Defined.

(** ** Which calls return

    For a finite positive spot and strike the pricer raises nothing,
    whatever the time to expiry (the special values included) and the
    finite volatility. *)

Section Totality.

Context `{NormalDist}.
Variable self : BinaryOptionPricer.

Lemma calculate_d1_d2_total (S K sigma r : R) (T : pyfloat) :
  0 < S -> 0 < K ->
  exists d : pyfloat * pyfloat,
    _calculate_d1_d2 (Finite S) (Finite K) T (Finite sigma) (Finite r) = Ok d.
Proof.
  intros HS HK.
  assert (HSK : 0 < S / K) by now apply Rdiv_lt_0_compat.
  pose proof (eff_sigma_pos sigma) as Hsg.
  destruct T as [t | | |].
  - destruct (Rle_dec t 0) as [Ht | Ht].
    + unfold _calculate_d1_d2. cbn [fleb]. rewrite (Rleb_true t 0) by assumption.
      destruct (fgeb _ _); eexists; reflexivity.
    + eexists. apply calculate_d1_d2_finite; lra.
  - unfold _calculate_d1_d2. cbn [fleb].
    rewrite sigma_floor_finite.
    cbn [math_sqrt bind].
    rewrite py_div_finite by lra. rewrite np_div_finite by lra.
    cbn [bind math_log]. rewrite Rltb_true by assumption.
    cbn [bind fmul]. rewrite (inf_of_sign_pos (eff_sigma sigma)) by assumption.
    cbn [py_div bind]. eexists. reflexivity.
  - unfold _calculate_d1_d2. cbn [fleb].
    destruct (fgeb _ _); eexists; reflexivity.
  - unfold _calculate_d1_d2. cbn [fleb].
    rewrite sigma_floor_finite.
    cbn [math_sqrt bind].
    rewrite py_div_finite by lra. rewrite np_div_finite by lra.
    cbn [bind math_log]. rewrite Rltb_true by assumption.
    cbn [bind fmul py_div]. eexists. reflexivity.
Qed.

Lemma math_sqrt_total (T : pyfloat) :
  fleb T (Finite 0) = false -> exists q : pyfloat, math_sqrt T = Ok q.
Proof.
  destruct T as [t | | |]; cbn; intros HT; try discriminate;
    try (eexists; reflexivity).
  destruct (Rleb_spec t 0) as [Ht | Ht]; [discriminate |].
  rewrite Rleb_true by lra. eexists. reflexivity.
Qed.

Lemma binary_call_price_total (S K sigma r : R) (T_seconds : pyfloat) :
  0 < S -> 0 < K ->
  exists c : R,
    binary_call_price self (Finite S) (Finite K) T_seconds
      (Some (Finite sigma)) (Finite r) = Ok (Finite c) /\
    0 <= c <= 1.
Proof.
  intros HS HK. unfold binary_call_price. cbn [or_default].
  rewrite to_years. cbn [bind].
  destruct (fleb (np_div T_seconds SECONDS_PER_YEAR) (Finite 0)).
  - destruct (fgeb _ _); eexists; (split; [reflexivity | lra]).
  - destruct (calculate_d1_d2_total S K sigma r
                (np_div T_seconds SECONDS_PER_YEAR) HS HK) as (d & ->).
    cbn [bind]. destruct (clamp_range (norm_cdf (snd d))) as (c & -> & Hc).
    exists c. split; [reflexivity | assumption].
Qed.

Lemma binary_put_price_total (S K sigma r : R) (T_seconds : pyfloat) :
  0 < S -> 0 < K ->
  exists c : R,
    binary_put_price self (Finite S) (Finite K) T_seconds
      (Some (Finite sigma)) (Finite r) = Ok (Finite (1 - c)) /\
    0 <= c <= 1.
Proof.
  intros HS HK. unfold binary_put_price.
  destruct (binary_call_price_total S K sigma r T_seconds HS HK)
    as (c & -> & Hc).
  exists c. split; [reflexivity | assumption].
Qed.

Lemma calculate_greeks_total (S K sigma r : R) (T_seconds : pyfloat) :
  0 < S -> 0 < K ->
  exists g : GreeksDict,
    calculate_greeks self (Finite S) (Finite K) T_seconds
      (Some (Finite sigma)) (Finite r) = Ok g.
Proof.
  intros HS HK. unfold calculate_greeks. cbn [or_default].
  rewrite to_years. cbn [bind].
  destruct (fleb (np_div T_seconds SECONDS_PER_YEAR) (Finite 0)) eqn:HT.
  - eexists. reflexivity.
  - destruct (calculate_d1_d2_total S K sigma r
                (np_div T_seconds SECONDS_PER_YEAR) HS HK) as (d & ->).
    cbn [bind]. destruct (math_sqrt_total _ HT) as (q & ->).
    cbn [bind]. eexists. reflexivity.
Qed.

End Totality.

(** ** The implied volatility solver (C3, C6) *)

Section Solver.

Context `{NormalDist}.
Variable self : BinaryOptionPricer.




End Solver.



Section RoundTrip.

Context `{NormalDist}.
Variable self : BinaryOptionPricer.


End RoundTrip.


(** *** The round trip at the money, 10 ms before expiry *)

Section RoundTripFails.

Import StdNormal.





End RoundTripFails.

(** ** Determinism (C7) *)

Section Determinism.

Context `{NormalDist}.
Variable self : BinaryOptionPricer.

Lemma classify_zone_total (T_seconds : pyfloat) (S K : R) :
  K <> 0 ->
  exists z : string * string,
    classify_zone T_seconds (Finite S) (Finite K) = Ok z.
Proof.
  intros HK. unfold classify_zone.
  rewrite (classify_zone_distance S K HK). cbn [bind].
  destruct (fgtb T_seconds _); [eexists; reflexivity |].
  destruct (_ && _); [eexists; reflexivity |].
  destruct (_ && _); eexists; reflexivity.
Qed.

(** [price] returns for a finite positive spot and strike, and stamps the
    result with the clock when no timestamp is passed. *)
Lemma price_total (now : datetime) (S K sigma : R) (T_seconds : pyfloat)
  (ts : option datetime) :
  0 < S -> 0 < K ->
  exists p : PricingResult,
    price self now (Finite S) (Finite K) T_seconds (Some (Finite sigma)) ts
    = Ok p /\
    timestamp p = match ts with Some t => t | None => now end.
Proof.
  intros HS HK. unfold price. cbn [or_default].
  destruct (binary_call_price_total self S K sigma 0 T_seconds HS HK)
    as (c & -> & _).
  destruct (binary_put_price_total self S K sigma 0 T_seconds HS HK)
    as (c' & -> & _).
  destruct (calculate_greeks_total self S K sigma 0 T_seconds HS HK)
    as (g & ->).
  destruct (classify_zone_total T_seconds S K ltac:(lra)) as (z & ->).
  cbn [bind]. eexists. split; reflexivity.
Qed.


End Determinism.



(** ** A volatility that is not positive (C2) *)

Section ZeroVolatility.

Context `{NormalDist}.
Variable self : BinaryOptionPricer.

(** The call price replaces a volatility that is not positive by 1e-4 and
    returns a number of the unit interval. *)
Lemma binary_call_price_clamps_sigma (S K T_seconds sigma r : R) :
  0 < S -> 0 < K -> 0 < T_seconds -> sigma <= 0 ->
  binary_call_price self (Finite S) (Finite K) (Finite T_seconds)
    (Some (Finite sigma)) (Finite r)
  = binary_call_price self (Finite S) (Finite K) (Finite T_seconds)
      (Some (Finite 0.0001)) (Finite r).
Proof.
  intros HS HK HT Hsigma. rewrite !binary_call_price_finite by assumption.
  unfold call_value. rewrite (eff_sigma_eps sigma) by assumption.
  rewrite (eff_sigma_id 0.0001) by lra. reflexivity.
Qed.

(** [calculate_greeks] keeps the caller's volatility in its divisors: at
    volatility 0 the delta is the positive density over zero. *)
Lemma calculate_greeks_zero_sigma_delta (S K T_seconds r : R) :
  (forall x : R, 0 < pdf x) ->
  0 < S -> 0 < K -> 0 < T_seconds ->
  exists g : GreeksDict,
    calculate_greeks self (Finite S) (Finite K) (Finite T_seconds)
      (Some (Finite 0)) (Finite r) = Ok g /\
    g_delta g = PosInf.
Proof.
  intros Hpdf HS HK HT. eexists.
  split; [apply calculate_greeks_finite; assumption |].
  cbn [g_delta np_div]. rewrite Reqb_true by ring.
  apply inf_of_sign_pos, Hpdf.
Qed.

End ZeroVolatility.

Section ZeroVolatilityAtTheMoney.

Import StdNormal.

(** C2 at [calculate_greeks(95000, 95000, 300, sigma=0)]: the call returns,
    but with every Greek infinite, the quotient of a non-zero number by
    zero; at the volatility 1e-4 that [_calculate_d1_d2] substitutes, the
    delta is a finite positive number. *)
Theorem calculate_greeks_zero_sigma_is_infinite :
  exists g g' : GreeksDict,
    calculate_greeks (Pricing.init None) (Finite 95000) (Finite 95000)
      (Finite 300) (Some (Finite 0)) (Finite 0) = Ok g /\
    g_delta g = PosInf /\ g_gamma g = NegInf /\
    g_theta g = NegInf /\ g_vega g = NegInf /\
    calculate_greeks (Pricing.init None) (Finite 95000) (Finite 95000)
      (Finite 300) (Some (Finite 0.0001)) (Finite 0) = Ok g' /\
    exists d : R, g_delta g' = Finite d /\ 0 < d.
Proof.
  pose proof (years_pos 300 ltac:(lra)) as Hy.
  assert (Hq : 0 < sqrt (years 300)) by now apply sqrt_lt_R0.
  do 2 eexists. split; [apply calculate_greeks_finite; lra |].
  cbn [g_delta g_gamma g_theta g_vega np_div pdf std_normal].
  rewrite (eff_sigma_eps 0) by lra.
  rewrite d1_at_the_money by lra.
  set (n := phi (d2_of 95000 95000 (years 300) 0.0001 0)).
  assert (Hn : 0 < n) by apply phi_pos.
  assert (Hd1 : 0 < 0.5 * 0.0001 * sqrt (years 300)) by lra.
  rewrite !Reqb_true by ring.
  rewrite (inf_of_sign_pos n) by assumption.
  rewrite (inf_of_sign_pos (n * _)) by nra.
  assert (Hnd : 0 < n * (0.5 * 0.0001 * sqrt (years 300)))
    by (apply Rmult_lt_0_compat; assumption).
  assert (Hvega : - n * (0.5 * 0.0001 * sqrt (years 300)) * sqrt (years 300) < 0)
    by nra.
  rewrite (inf_of_sign_neg (- n * _)) by lra.
  rewrite (inf_of_sign_neg _ Hvega).
  cbn [fneg]. unfold SECONDS_PER_YEAR. cbn [np_div].
  rewrite Rleb_true by lra. repeat (split; [reflexivity |]).
  split; [apply calculate_greeks_finite; lra |].
  cbn [g_delta]. rewrite np_div_finite by lra.
  eexists. split; [reflexivity |].
  apply Rdiv_lt_0_compat; [apply phi_pos | lra].
Qed.

End ZeroVolatilityAtTheMoney.

(** ** The model on concrete inputs *)

Section Examples.

Import StdNormal.

Lemma Int_part_IZR (z : Z) : Int_part (IZR z) = z.
Proof. symmetry. apply Int_part_spec. lra. Qed.

Lemma round_half_even_IZR (z : Z) : round_half_even (IZR z) = z.
Proof.
  unfold round_half_even, frac_part. rewrite Int_part_IZR.
  rewrite Rltb_true by lra. reflexivity.
Qed.

(** A number with at most [p] decimals prints with its own digits. *)
Lemma format_f_exact (p : nat) (z : Z) (x : R) :
  0 <= x -> x * 10 ^ p = IZR z ->
  format_f p (Finite x) = place_point p (string_of_Z z).
Proof.
  intros Hx Hz. unfold format_f.
  rewrite Rabs_pos_eq by assumption. rewrite Hz, round_half_even_IZR.
  rewrite Rltb_false by assumption. reflexivity.
Qed.

Example format_0f_181 : format_f 0 (Finite 181) = "181"%string.
Proof. rewrite (format_f_exact 0 181) by (simpl; lra). reflexivity. Qed.

Example format_2f_1 : format_f 2 (Finite 1) = "1.00"%string.
Proof. rewrite (format_f_exact 2 100) by (simpl; lra). reflexivity. Qed.

(** A tie goes to the even digit, as in Python: [f"{0.125:.2f}"] is
    ['0.12']. *)
Example format_2f_tie : format_f 2 (Finite 0.125) = "0.12"%string.
Proof.
  unfold format_f. rewrite Rabs_pos_eq by lra.
  assert (Hi : Int_part (0.125 * 10 ^ 2) = 12%Z).
  { symmetry. apply Int_part_spec. simpl. lra. }
  unfold round_half_even, frac_part. rewrite Hi.
  rewrite Rltb_false by (simpl; lra). rewrite Rltb_false by (simpl; lra).
  rewrite Rltb_false by lra. reflexivity.
Qed.

(** A negative number keeps its sign when it rounds to zero:
    [f"{-0.4:.0f}"] is ['-0']. *)
Example format_0f_negative : format_f 0 (Finite (- 0.4)) = "-0"%string.
Proof.
  unfold format_f. rewrite Rabs_left by lra.
  assert (Hi : Int_part (- - 0.4 * 10 ^ 0) = 0%Z).
  { symmetry. apply Int_part_spec. simpl. lra. }
  unfold round_half_even, frac_part. rewrite Hi.
  rewrite (Rltb_true _ (1 / 2)) by (simpl; lra).
  rewrite Rltb_true by lra. reflexivity.
Qed.

(** [classify_zone(181, 95000, 95000)], description included. *)
Example classify_zone_at_181 :
  classify_zone (Finite 181) (Finite 95000) (Finite 95000)
  = Ok ("linear_decay",
        "Normal theta decay zone. 181s remaining, 0.00% from strike.")%string.
Proof.
  unfold classify_zone.
  rewrite (classify_zone_distance 95000 95000) by lra.
  cbn [bind fmul fgtb fltb]. rewrite Rltb_true by lra.
  replace (Rabs (95000 - 95000) / 95000 * 100) with 0
    by (rewrite Rminus_diag, Rabs_R0; lra).
  rewrite (format_f_exact 0 181) by (simpl; lra).
  rewrite (format_f_exact 2 0) by (simpl; lra).
  reflexivity.
Qed.

Lemma sqrt_five_minutes : sqrt (years 300) < 0.0031.
Proof.
  replace 0.0031 with (sqrt (0.0031 * 0.0031)) by (apply sqrt_square; lra).
  apply sqrt_lt_1_alt. pose proof (years_pos 300 ltac:(lra)) as Hy.
  split; [lra |]. unfold years.
  apply Rmult_lt_reg_r with (365.25 * 24 * 60 * 60); [lra |].
  unfold Rdiv. rewrite Rmult_assoc, Rinv_l by lra. lra.
Qed.

(** The scenario of the specification: at the money, five minutes before
    expiry, at volatility 0.6, the call is worth 0.5 to within 0.001. *)
Example call_price_at_the_money :
  exists c : R,
    binary_call_price (Pricing.init None) (Finite 95000) (Finite 95000)
      (Finite 300) (Some (Finite 0.6)) (Finite 0) = Ok (Finite c) /\
    0.499 <= c <= 0.5.
Proof.
  pose proof (years_pos 300 ltac:(lra)) as Hy.
  assert (Hq : 0 < sqrt (years 300)) by now apply sqrt_lt_R0.
  pose proof sqrt_five_minutes as Hq'.
  eexists. split; [apply binary_call_price_finite; lra |].
  unfold call_value. rewrite eff_sigma_id by lra.
  rewrite d2_at_the_money by lra. cbn [cdf std_normal].
  set (a := - (0.5 * 0.6 * sqrt (years 300))).
  assert (Ha : a <= 0) by (unfold a; lra).
  assert (Ha' : - a < 0.001) by (unfold a; lra).
  clearbody a.
  pose proof (Phi_mono a 0 Ha) as Hmono.
  pose proof (Phi_lipschitz a 0 Ha) as Hlip.
  rewrite Phi_0 in Hmono, Hlip.
  unfold Rmax, Rmin.
  destruct (Rle_dec 1 (Phi a)); destruct (Rle_dec 0 _); lra.
Qed.

End Examples.

(** * Further properties of the engine *)

(** ** Prices on every input *)

Section PricesEverywhere.

Context `{NormalDist}.
Variable self : BinaryOptionPricer.

(** The early return of [binary_call_price]. *)
Lemma binary_call_price_expired (S K T_seconds : pyfloat)
  (sigma : option pyfloat) (r : pyfloat) :
  fleb T_seconds (Finite 0) = true ->
  binary_call_price self S K T_seconds sigma r
  = Ok (if fgeb S K then Finite 1 else Finite 0).
Proof.
  intros HT. destruct (expired_in_years _ HT) as (T & HTy & HT0).
  unfold binary_call_price. rewrite HTy. cbn [bind]. now rewrite HT0.
Qed.

(** A call price that is returned is the settled price or a clamp. *)
Lemma binary_call_price_returns_unit (S K T_seconds : pyfloat)
  (sigma : option pyfloat) (r call : pyfloat) :
  binary_call_price self S K T_seconds sigma r = Ok call ->
  exists c : R, call = Finite c /\ 0 <= c <= 1.
Proof.
  unfold binary_call_price. rewrite to_years. cbn [bind].
  destruct (fleb _ _).
  - destruct (fgeb S K); intros [= <-]; eexists; (split; [reflexivity | lra]).
  - destruct (_calculate_d1_d2 _ _ _ _ _) as [d | e]; [| discriminate].
    cbn [bind]. intros [= <-]. apply clamp_range.
Qed.

(** X1.  Whatever the arguments ([nan], infinities, a volatility that is
    not positive, an expired contract), a call price that is returned is a
    finite number of the unit interval, and the put price on the same
    arguments is returned too and is exactly one minus it. *)
Theorem prices_in_unit_interval (S K T_seconds : pyfloat)
  (sigma : option pyfloat) (r call : pyfloat) :
  binary_call_price self S K T_seconds sigma r = Ok call ->
  exists c : R,
    call = Finite c /\ 0 <= c <= 1 /\
    binary_put_price self S K T_seconds sigma r = Ok (Finite (1 - c)).
Proof.
  intros Hcall.
  destruct (binary_call_price_returns_unit _ _ _ _ _ _ Hcall)
    as (c & -> & Hc).
  exists c. split; [reflexivity |]. split; [assumption |].
  unfold binary_put_price. rewrite Hcall. reflexivity.
Qed.

(** X2.  The result of [price] echoes its arguments, and its two prices are
    numbers of the unit interval that add up to exactly 1, on every input
    for which [price] returns. *)
Theorem price_result_invariant (now : datetime)
  (spot strike ttl_seconds : pyfloat) (sigma : option pyfloat)
  (ts : option datetime) (p : PricingResult) :
  price self now spot strike ttl_seconds sigma ts = Ok p ->
  spot_price p = spot /\ strike_price p = strike /\
  time_to_expiry_seconds p = ttl_seconds /\
  volatility p = or_default self sigma /\
  exists c : R,
    up_price p = Finite c /\ down_price p = Finite (1 - c) /\ 0 <= c <= 1.
Proof.
  unfold price. intros Hp.
  destruct (binary_call_price _ _ _ _ _ _) as [up | e] eqn:Hup;
    [| discriminate].
  destruct (binary_call_price_returns_unit _ _ _ _ _ _ Hup) as (c & -> & Hc).
  unfold binary_put_price in Hp. rewrite Hup in Hp. cbn [bind] in Hp.
  destruct (calculate_greeks _ _ _ _ _ _) as [g | e]; [| discriminate].
  destruct (classify_zone _ _ _) as [z | e]; [| discriminate].
  cbn [bind] in Hp. injection Hp as <-. cbn.
  repeat (split; [reflexivity |]). exists c. repeat split; lra.
Qed.

End PricesEverywhere.

(** X1 on an expired contract with a [nan] volatility. *)
Lemma prices_in_unit_interval_witness :
  exists c : R,
    Finite 1 = Finite c /\ 0 <= c <= 1 /\
    binary_put_price (H := StdNormal.std_normal) (Pricing.init None)
      (Finite 95000) (Finite 95000) (Finite 0) (Some NaN) (Finite 0)
    = Ok (Finite (1 - c)).
Proof.
  apply (prices_in_unit_interval (H := StdNormal.std_normal)
           (Pricing.init None) (Finite 95000) (Finite 95000) (Finite 0)
           (Some NaN) (Finite 0)).
  rewrite (binary_call_price_expired (H := StdNormal.std_normal))
    by (apply Rleb_true; lra).
  cbn [fgeb fleb]. rewrite Rleb_true by lra. reflexivity.
Defined.

(** X2 at the money, five minutes before expiry, at 60 % volatility. *)
Lemma price_result_invariant_witness :
  exists p : PricingResult,
    price (H := StdNormal.std_normal) (Pricing.init None) 0%Z
      (Finite 95000) (Finite 95000) (Finite 300) (Some (Finite 0.6)) None
    = Ok p /\
    spot_price p = Finite 95000 /\ strike_price p = Finite 95000 /\
    time_to_expiry_seconds p = Finite 300 /\
    volatility p = Finite 0.6 /\
    exists c : R,
      up_price p = Finite c /\ down_price p = Finite (1 - c) /\ 0 <= c <= 1.
Proof.
  destruct (price_total (H := StdNormal.std_normal) (Pricing.init None) 0%Z
              95000 95000 0.6 (Finite 300) None) as (p & Hp & _);
    [lra | lra |].
  exists p. split; [exact Hp |].
  exact (price_result_invariant (H := StdNormal.std_normal)
           (Pricing.init None) 0%Z (Finite 95000) (Finite 95000)
           (Finite 300) (Some (Finite 0.6)) None p Hp).
Defined.

(** ** The Greeks at expiry and their signs before it *)

Section GreeksEverywhere.

Import Greeks.
Context `{NormalDist}.
Variable self : GreeksAnalyzer.

(** X3.  At or after expiry nothing is divided: for every spot, strike (a
    zero strike too), volatility and rate, [calculate_greeks] returns four
    zeros, and [full_greeks] returns the settled prices with all eight
    Greeks zero. *)
Theorem greeks_vanish_at_expiry (S K T_seconds : pyfloat)
  (sigma : option pyfloat) (r : pyfloat) :
  fleb T_seconds (Finite 0) = true ->
  calculate_greeks (pricer self) S K T_seconds sigma r
  = Ok {| g_delta := Finite 0; g_gamma := Finite 0;
          g_theta := Finite 0; g_vega := Finite 0 |} /\
  exists s : GreeksSnapshot,
    full_greeks self S K T_seconds sigma = Ok s /\
    snap_up_price s = (if fgeb S K then Finite 1 else Finite 0) /\
    snap_down_price s = (if fgeb S K then Finite 0 else Finite 1) /\
    delta_up s = Finite 0 /\ delta_down s = Finite 0 /\
    gamma_up s = Finite 0 /\ gamma_down s = Finite 0 /\
    theta_up s = Finite 0 /\ theta_down s = Finite 0 /\
    vega_up s = Finite 0 /\ vega_down s = Finite 0.
Proof.
  intros HT.
  assert (Hg : forall (sg : option pyfloat) (r' : pyfloat),
             calculate_greeks (pricer self) S K T_seconds sg r'
             = Ok {| g_delta := Finite 0; g_gamma := Finite 0;
                     g_theta := Finite 0; g_vega := Finite 0 |}).
  { intros sg r'. destruct (expired_in_years _ HT) as (T & HTy & HT0).
    unfold calculate_greeks. rewrite HTy. cbn [bind]. now rewrite HT0. }
  split; [apply Hg |].
  unfold full_greeks, binary_put_price.
  rewrite binary_call_price_expired by assumption. cbn [bind].
  rewrite Hg. cbn [bind]. eexists. split; [reflexivity |].
  cbn. rewrite Ropp_0.
  destruct (fgeb S K); cbn; repeat split; f_equal; lra.
Qed.





End GreeksEverywhere.

(** X3 at expiry with a zero strike. *)
Lemma greeks_vanish_at_expiry_witness :
  calculate_greeks (H := StdNormal.std_normal) (Pricing.init None)
    (Finite 95000) (Finite 0) (Finite 0) (Some (Finite 0.6)) (Finite 0)
  = Ok {| g_delta := Finite 0; g_gamma := Finite 0;
          g_theta := Finite 0; g_vega := Finite 0 |}.
Proof.
  apply (greeks_vanish_at_expiry (H := StdNormal.std_normal)
           (Greeks.init None) (Finite 95000) (Finite 0) (Finite 0)
           (Some (Finite 0.6)) (Finite 0)).
  apply Rleb_true. lra.
Defined.


(** ** The risk profile *)

(** Signed distance to the strike, in percent, and the score computed from
    it, as [risk_profile] has them. *)
Definition signed_distance_pct (S K : R) : R := (S - K) / K * 100.

Definition gamma_risk_score_of (ttl_seconds d : R) : R :=
  Rmax 0 (1 - ttl_seconds / 900) * Rmax 0 (1 - Rabs d / 1) * 100.

Lemma py_max0_finite (x : R) :
  py_max (Finite 0) (Finite x) = Finite (Rmax 0 x).
Proof.
  unfold py_max, fgtb, fltb, Rmax.
  destruct (Rltb_spec 0 x), (Rle_dec 0 x); try lra; try reflexivity.
  f_equal. lra.
Qed.


Section RiskProfile.

Import Greeks.
Context `{NormalDist}.
Variable self : GreeksAnalyzer.

Lemma full_greeks_total (S K sigma : R) (T_seconds : pyfloat) :
  0 < S -> 0 < K ->
  exists s : GreeksSnapshot,
    full_greeks self (Finite S) (Finite K) T_seconds (Some (Finite sigma))
    = Ok s.
Proof.
  intros HS HK. unfold full_greeks. cbn [or_default].
  destruct (binary_call_price_total (pricer self) S K sigma 0 T_seconds HS HK)
    as (c & -> & _).
  destruct (binary_put_price_total (pricer self) S K sigma 0 T_seconds HS HK)
    as (c' & -> & _).
  destruct (calculate_greeks_total (pricer self) S K sigma 0 T_seconds HS HK)
    as (g & ->).
  cbn [bind]. eexists. reflexivity.
Qed.

(** [risk_profile] on finite arguments with a positive spot and strike. *)
Lemma risk_profile_finite (S K ttl sigma : R) :
  0 < S -> 0 < K ->
  exists (rp : RiskProfile) (z : string),
    risk_profile self (Finite S) (Finite K) (Finite ttl) (Some (Finite sigma))
    = Ok rp /\
    zone_label (Finite ttl) (Finite S) (Finite K) = Ok z /\
    rp_zone rp = z /\
    rp_moneyness rp = (if Rleb K S then "ITM" else "OTM")%string /\
    rp_distance_to_strike_pct rp = Finite (signed_distance_pct S K) /\
    rp_gamma_risk_score rp
    = Finite (gamma_risk_score_of ttl (signed_distance_pct S K)) /\
    rp_recommendation rp
    = _get_recommendation z (Finite (signed_distance_pct S K)) (Finite ttl)
        (Finite (gamma_risk_score_of ttl (signed_distance_pct S K))).
Proof.
  intros HS HK. unfold risk_profile, zone_label.
  destruct (full_greeks_total S K sigma (Finite ttl) HS HK) as (s & ->).
  destruct (classify_zone_total (Finite ttl) S K ltac:(lra)) as (z & ->).
  cbn [bind fsub fneg fadd].
  rewrite py_div_finite by lra. rewrite np_div_finite by lra.
  cbn [bind fmul]. rewrite py_div_finite by lra.
  rewrite np_div_finite by lra. cbn [bind fsub fneg fadd fabs].
  rewrite py_div_finite by lra. rewrite np_div_finite by lra.
  cbn [bind fsub fneg fadd]. rewrite !py_max0_finite. cbn [fmul].
  eexists. exists (fst z). split; [reflexivity |].
  cbn. repeat split.
Qed.

End RiskProfile.

Section RiskProfileFacts.

Import Greeks.
Context `{NormalDist}.
Variable self : GreeksAnalyzer.




(** X6.  The score is not capped past expiry: for a negative time to
    expiry, on the strike, it is [(1 - ttl/900) * 100], above 100. *)
Theorem gamma_risk_score_past_expiry (K ttl sigma : R) :
  0 < K -> ttl < 0 ->
  exists rp : RiskProfile,
    risk_profile self (Finite K) (Finite K) (Finite ttl) (Some (Finite sigma))
    = Ok rp /\
    rp_gamma_risk_score rp = Finite ((1 - ttl / 900) * 100) /\
    100 < (1 - ttl / 900) * 100.
Proof.
  intros HK Httl.
  destruct (risk_profile_finite self K K ttl sigma HK HK)
    as (rp & z & Hrp & _ & _ & _ & _ & Hscore & _).
  exists rp. split; [exact Hrp |]. split; [| lra].
  rewrite Hscore. f_equal. unfold gamma_risk_score_of, signed_distance_pct.
  replace ((K - K) / K * 100) with 0 by (unfold Rdiv; ring).
  rewrite Rabs_R0. unfold Rmax.
  destruct (Rle_dec 0 (1 - ttl / 900)); destruct (Rle_dec 0 (1 - 0 / 1)); lra.
Qed.


End RiskProfileFacts.


(** X6 fifteen minutes past expiry: the score is 200. *)
Lemma gamma_risk_score_past_expiry_witness :
  exists rp : Greeks.RiskProfile,
    Greeks.risk_profile (H := StdNormal.std_normal) (Greeks.init None)
      (Finite 95000) (Finite 95000) (Finite (- 900)) (Some (Finite 0.6))
    = Ok rp /\
    Greeks.rp_gamma_risk_score rp = Finite ((1 - - 900 / 900) * 100) /\
    100 < (1 - - 900 / 900) * 100.
Proof.
  apply (gamma_risk_score_past_expiry (H := StdNormal.std_normal)
           (Greeks.init None) 95000 (- 900) 0.6); lra.
Defined.


(** ** The dashboard's two calls, and the hedge *)

Section Composition.

Import Greeks.
Context `{NormalDist}.
Variable self : GreeksAnalyzer.

(** X8.  [price] and [risk_profile], called on the same arguments with the
    same pricer as the dashboard does, agree on everything they both
    report: the zone and its description, the two prices and the four
    Greeks; and [risk_profile] returns whenever [price] does. *)
Theorem risk_profile_agrees_with_price (now : datetime)
  (spot strike ttl_seconds : pyfloat) (sigma : option pyfloat)
  (ts : option datetime) (p : PricingResult) :
  price (pricer self) now spot strike ttl_seconds sigma ts = Ok p ->
  exists rp : RiskProfile,
    risk_profile self spot strike ttl_seconds sigma = Ok rp /\
    rp_zone rp = zone p /\ rp_zone_description rp = zone_description p /\
    rp_up_price rp = up_price p /\ rp_down_price rp = down_price p /\
    rp_delta rp = delta p /\ rp_dollar_delta rp = delta p /\
    rp_gamma rp = gamma p /\
    rp_theta_per_second rp = theta p /\ rp_vega rp = vega p.
Proof.
  unfold price, risk_profile, full_greeks. intros Hp.
  destruct (binary_call_price _ _ _ _ _ _) as [up | e]; [| discriminate].
  destruct (binary_put_price _ _ _ _ _ _) as [down | e]; [| discriminate].
  destruct (calculate_greeks _ _ _ _ _ _) as [g | e]; [| discriminate].
  cbn [bind] in Hp |- *.
  destruct (classify_zone ttl_seconds spot strike) as [z | e] eqn:Hz;
    [| discriminate].
  cbn [bind] in Hp |- *. injection Hp as <-.
  assert (Hstrike : exists q, py_div (fsub spot strike) strike = Ok q).
  { unfold classify_zone in Hz. unfold py_div in *.
    destruct strike as [k | | |]; try (eexists; reflexivity).
    destruct (Reqb k 0); [discriminate | eexists; reflexivity]. }
  destruct Hstrike as (q & ->). cbn [bind].
  rewrite !py_div_finite by lra. cbn [bind].
  eexists. split; [reflexivity |]. cbn. repeat split.
Qed.

(** The up-side delta and gamma of an expired contract. *)
Lemma greeks_vanish_at_expiry_aux (S K T_seconds : pyfloat)
  (sigma : option pyfloat) :
  fleb T_seconds (Finite 0) = true ->
  exists s : GreeksSnapshot,
    full_greeks self S K T_seconds sigma = Ok s /\
    delta_up s = Finite 0 /\ gamma_up s = Finite 0.
Proof.
  intros HT. destruct (expired_in_years _ HT) as (T & HTy & HT0).
  unfold full_greeks, binary_put_price.
  rewrite binary_call_price_expired by assumption. cbn [bind].
  unfold calculate_greeks. rewrite HTy. cbn [bind]. rewrite HT0. cbn [bind].
  eexists. split; [reflexivity |]. split; reflexivity.
Qed.


(** X10.  At or after expiry there is nothing to hedge: for a finite
    position and spot every quantity of [delta_hedge_ratio] is zero,
    whatever the strike and the volatility. *)
Theorem delta_hedge_vanishes_at_expiry (n S : R) (K T_seconds : pyfloat)
  (sigma : option pyfloat) :
  fleb T_seconds (Finite 0) = true ->
  exists h : HedgeSummary,
    delta_hedge_ratio self (Finite n) (Finite S) K T_seconds sigma = Ok h /\
    position_size h = Finite n /\
    unit_delta h = Finite 0 /\ position_delta h = Finite 0 /\
    btc_to_hedge h = Finite 0 /\ hedge_value_usd h = Finite 0 /\
    gamma_exposure h = Finite 0 /\
    rebalance_needed_per_dollar h = Finite 0.
Proof.
  intros HT.
  destruct (greeks_vanish_at_expiry_aux (Finite S) K T_seconds sigma HT)
    as (s & Hs & Hdelta & Hgamma).
  unfold delta_hedge_ratio. rewrite Hs. cbn [bind].
  eexists. split; [reflexivity |]. cbn. rewrite Hdelta, Hgamma. cbn.
  repeat split; f_equal; try ring.
  rewrite Rmult_0_r. apply Rabs_R0.
Qed.

End Composition.

(** X8 on the dashboard's default view. *)
Lemma risk_profile_agrees_with_price_witness :
  exists (p : PricingResult) (rp : Greeks.RiskProfile),
    price (H := StdNormal.std_normal) (Pricing.init None) 0%Z
      (Finite 95000) (Finite 95000) (Finite 300) (Some (Finite 0.6)) None
    = Ok p /\
    Greeks.risk_profile (H := StdNormal.std_normal) (Greeks.init None)
      (Finite 95000) (Finite 95000) (Finite 300) (Some (Finite 0.6)) = Ok rp /\
    Greeks.rp_zone rp = zone p /\ Greeks.rp_delta rp = delta p.
Proof.
  destruct (price_total (H := StdNormal.std_normal) (Pricing.init None) 0%Z
              95000 95000 0.6 (Finite 300) None) as (p & Hp & _); [lra .. |].
  destruct (risk_profile_agrees_with_price (H := StdNormal.std_normal)
              (Greeks.init None) 0%Z (Finite 95000) (Finite 95000)
              (Finite 300) (Some (Finite 0.6)) None p Hp)
    as (rp & Hrp & Hzone & _ & _ & _ & Hdelta & _).
  exists p, rp. repeat split; assumption.
Defined.


(** X10 at expiry, with a zero strike and no volatility given. *)
Lemma delta_hedge_vanishes_at_expiry_witness :
  exists h : Greeks.HedgeSummary,
    Greeks.delta_hedge_ratio (H := StdNormal.std_normal) (Greeks.init None)
      (Finite 10) (Finite 95000) (Finite 0) (Finite 0) None = Ok h /\
    Greeks.btc_to_hedge h = Finite 0 /\ Greeks.hedge_value_usd h = Finite 0.
Proof.
  destruct (delta_hedge_vanishes_at_expiry (H := StdNormal.std_normal)
              (Greeks.init None) 10 95000 (Finite 0) (Finite 0) None
              (Rleb_true 0 0 (Rle_refl 0)))
    as (h & Hh & _ & _ & _ & Hbtc & Husd & _).
  exists h. repeat split; assumption.
Defined.

(** ** Zones on every input, and the dashboard's zone map *)

(** [zone_map] of [create_zone_heatmap] in [src/app.py], and
    [zone_map.get(zone, 1)]. *)
Definition zone_map : list (string * pyfloat) :=
  [("linear_decay", Finite 0); ("lock_in", Finite 1);
   ("transition", Finite 1.5); ("gamma_risk", Finite 2)]%string.

Fixpoint dict_get {V : Type} (d : list (string * V)) (key : string)
  (default : V) : V :=
  match d with
  | [] => default
  | (k, v) :: rest => if String.eqb k key then v else dict_get rest key default
  end.

Definition zone_map_get (zone : string) : pyfloat :=
  dict_get zone_map zone (Finite 1).

(** Whether [key in d]. *)
Fixpoint dict_mem {V : Type} (d : list (string * V)) (key : string) : bool :=
  match d with
  | [] => false
  | (k, _) :: rest => String.eqb k key || dict_mem rest key
  end.

Section ZonesEverywhere.

(** X11.  Whatever floats [classify_zone] is given, a label it returns is
    one of the four zones, and so a key of the dashboard's [zone_map]; it is
    linear_decay exactly when more than 180 seconds are left, lock_in only
    with more than 60 and at most 180 seconds left, gamma_risk only with at
    most 60 seconds left; and a [nan] time to expiry is a transition. *)
Theorem zone_label_exhaustive (T_seconds S K : pyfloat) (z : string) :
  zone_label T_seconds S K = Ok z ->
  (z = "linear_decay" \/ z = "lock_in" \/ z = "gamma_risk"
   \/ z = "transition")%string /\
  dict_mem zone_map z = true /\
  (z = "linear_decay"%string <-> fgtb T_seconds (Finite 180) = true) /\
  (z = "lock_in"%string ->
   fgtb T_seconds (Finite 60) = true /\
   fgtb T_seconds (Finite 180) = false) /\
  (z = "gamma_risk"%string -> fleb T_seconds (Finite 60) = true) /\
  (T_seconds = NaN -> z = "transition"%string).
Proof.
  unfold zone_label, classify_zone. intros Hz.
  destruct (py_div _ _) as [q | e]; [| discriminate]. cbn [bind] in Hz.
  destruct (fgtb T_seconds (Finite 180)) eqn:H180.
  { cbn [bind fst] in Hz. injection Hz as <-.
    repeat split; auto; try discriminate.
    intros ->. discriminate. }
  destruct (fgtb T_seconds (Finite 60)) eqn:H60;
    destruct (fgtb (fmul q (Finite 100)) (Finite 0.5)) eqn:Hd;
    cbn [andb] in Hz.
  1: { cbn [bind fst] in Hz. injection Hz as <-.
       repeat split; auto; try discriminate. intros ->. discriminate. }
  all: destruct (fleb T_seconds (Finite 60)
                 && fleb (fmul q (Finite 100)) (Finite 0.5)) eqn:Hg;
    cbn [bind fst] in Hz; injection Hz as <-.
  all: repeat split; auto; try discriminate.
  all: try (intros _; apply andb_prop in Hg; tauto).
  all: try (intros ->; discriminate).
Qed.

End ZonesEverywhere.

(** X11 one percent above the strike, two minutes before expiry. *)
Lemma zone_label_exhaustive_witness :
  dict_mem zone_map "lock_in" = true /\
  zone_map_get "lock_in" = Finite 1.
Proof.
  destruct (zone_label_exhaustive (Finite 120) (Finite (95000 * 1.01))
              (Finite 95000) "lock_in") as (_ & Hmem & _).
  - destruct (zone_label_cases 120 (95000 * 1.01) 95000 ltac:(lra))
      as (z & -> & _ & Hz & _).
    rewrite Hz; [reflexivity | lra | lra |].
    rewrite distance_pct_scaled by lra. lra.
  - split; [exact Hmem | reflexivity].
Defined.

(** ** More on the implied volatility solver *)

Section SolverFacts.

Context `{NormalDist}.
Variable self : BinaryOptionPricer.




End SolverFacts.



(** ** More on the prices *)

Section PriceFacts.

Context `{NormalDist}.
Variable self : BinaryOptionPricer.

(** X14.  The fallback of [_calculate_d1_d2] at or after expiry agrees with
    the early return of [binary_call_price]: both of its results are the
    same infinity, whose clamped distribution value is the settled price,
    and whose density is 0. *)
Theorem d1_d2_at_expiry_match_payoff (S K T sigma r : pyfloat) :
  fleb T (Finite 0) = true ->
  exists d : pyfloat,
    _calculate_d1_d2 S K T sigma r = Ok (d, d) /\
    d = (if fgeb S K then PosInf else NegInf) /\
    py_max (Finite 0) (py_min (Finite 1) (norm_cdf d))
    = (if fgeb S K then Finite 1 else Finite 0) /\
    norm_pdf d = Finite 0.
Proof.
  intros HT. unfold _calculate_d1_d2. rewrite HT.
  destruct (fgeb S K); eexists; (split; [reflexivity |]);
    (split; [reflexivity |]); cbn [norm_cdf norm_pdf];
    unfold py_max, py_min; cbn [fltb fgtb].
  - rewrite (Rltb_false 1 1) by lra. rewrite Rltb_true by lra.
    split; reflexivity.
  - rewrite (Rltb_true 0 1) by lra. rewrite Rltb_false by lra.
    split; reflexivity.
Qed.

(** X15.  A volatility that is not positive is priced as the volatility
    1e-4: before expiry, for a positive spot and strike, the call and the
    put at any finite [sigma <= 0] are the call and the put at 0.0001. *)
Theorem nonpositive_sigma_priced_at_epsilon (S K T_seconds sigma r : R) :
  0 < S -> 0 < K -> 0 < T_seconds -> sigma <= 0 ->
  binary_call_price self (Finite S) (Finite K) (Finite T_seconds)
    (Some (Finite sigma)) (Finite r)
  = binary_call_price self (Finite S) (Finite K) (Finite T_seconds)
      (Some (Finite 0.0001)) (Finite r) /\
  binary_put_price self (Finite S) (Finite K) (Finite T_seconds)
    (Some (Finite sigma)) (Finite r)
  = binary_put_price self (Finite S) (Finite K) (Finite T_seconds)
      (Some (Finite 0.0001)) (Finite r).
Proof.
  intros HS HK HT Hsigma.
  assert (Hv : call_value S K T_seconds sigma r
               = call_value S K T_seconds 0.0001 r).
  { unfold call_value. rewrite (eff_sigma_eps sigma) by assumption.
    rewrite (eff_sigma_id 0.0001) by lra. reflexivity. }
  rewrite !binary_call_price_finite, !binary_put_price_finite by assumption.
  rewrite Hv. split; reflexivity.
Qed.



End PriceFacts.

(** X14 at expiry, on the strike. *)
Lemma d1_d2_at_expiry_match_payoff_witness :
  exists d : pyfloat,
    _calculate_d1_d2 (Finite 95000) (Finite 95000) (Finite 0) (Finite 0.6)
      (Finite 0) = Ok (d, d) /\
    py_max (Finite 0)
      (py_min (Finite 1) (norm_cdf (H := StdNormal.std_normal) d))
    = Finite 1.
Proof.
  destruct (d1_d2_at_expiry_match_payoff (H := StdNormal.std_normal)
              (Finite 95000) (Finite 95000) (Finite 0) (Finite 0.6) (Finite 0)
              (Rleb_true 0 0 (Rle_refl 0))) as (d & Hd & _ & Hpay & _).
  exists d. split; [exact Hd |].
  rewrite Hpay. cbn [fgeb fleb]. now rewrite Rleb_true by lra.
Defined.

(** X15 at volatility 0 and five minutes before expiry. *)
Lemma nonpositive_sigma_priced_at_epsilon_witness :
  binary_call_price (H := StdNormal.std_normal) (Pricing.init None)
    (Finite 95000) (Finite 95000) (Finite 300) (Some (Finite 0)) (Finite 0)
  = binary_call_price (H := StdNormal.std_normal) (Pricing.init None)
      (Finite 95000) (Finite 95000) (Finite 300) (Some (Finite 0.0001))
      (Finite 0).
Proof.
  apply (nonpositive_sigma_priced_at_epsilon (H := StdNormal.std_normal)
           (Pricing.init None) 95000 95000 300 0 0); lra.
Defined.



(** ** src/models/greeks.py: [analyze_historical_greeks]

    A data point is a dictionary from strings to Python objects: a number,
    [None] or a string.  A dictionary is the list of its items in insertion
    order; [dict_set] is the assignment [d[key] = v], and
    [{**point, key: v}] is [dict_set] on a copy of [point].  Comparing or
    dividing an object that is no number raises [TypeError]. *)

Module History.

Import Pricing Greeks.

Inductive pyval : Type :=
| VFloat (x : pyfloat)
| VNone
| VStr (s : string).

Inductive error : Type :=
| EngineError (e : exception)
| TypeError.

Inductive outcome (A : Type) : Type :=
| Returns (a : A)
| Raises (e : error).
Arguments Returns {A} a.
Arguments Raises {A} e.

Definition pydict : Type := list (string * pyval).

Fixpoint dict_set (d : pydict) (key : string) (v : pyval) : pydict :=
  match d with
  | [] => [(key, v)]
  | (k, w) :: rest =>
      if String.eqb k key then (k, v) :: rest
      else (k, w) :: dict_set rest key v
  end.

Section Analyze.

Context `{NormalDist}.

(** The dictionary appended for a point. *)
Definition with_greeks (point : pydict) (greeks : GreeksSnapshot) : pydict :=
  let d := dict_set point "up_price" (VFloat (snap_up_price greeks)) in
  let d := dict_set d "down_price" (VFloat (snap_down_price greeks)) in
  let d := dict_set d "delta" (VFloat (delta_up greeks)) in
  let d := dict_set d "gamma" (VFloat (gamma_up greeks)) in
  let d := dict_set d "theta" (VFloat (theta_up greeks)) in
  dict_set d "vega" (VFloat (vega_up greeks)).

(** The loop [for point in data], with [results] as built so far. *)
Fixpoint analyze_loop (analyzer : GreeksAnalyzer) (data : list pydict)
  (strike sigma : pyfloat) (results : list pydict) : outcome (list pydict) :=
  match data with
  | [] => Returns results
  | point :: rest =>
      match dict_get point "btc_price" (VFloat (Finite 0)) with
      | VFloat spot =>
          if fgtb spot (Finite 0) then
            match dict_get point "time_to_expiry_seconds" (VFloat (Finite 0)) with
            | VNone => analyze_loop analyzer rest strike sigma results
            | VFloat ttl =>
                match full_greeks analyzer spot strike ttl (Some sigma) with
                | Ok greeks =>
                    analyze_loop analyzer rest strike sigma
                      (results ++ [with_greeks point greeks])
                | Raise e => Raises (EngineError e)
                end
            | VStr _ => Raises TypeError
            end
          else analyze_loop analyzer rest strike sigma results
      | VNone | VStr _ => Raises TypeError
      end
  end.

(** [analyze_historical_greeks(data, strike, sigma=0.60)]. *)
Definition analyze_historical_greeks (data : list pydict) (strike : pyfloat)
  (sigma : option pyfloat) : outcome (list pydict) :=
  let sigma := match sigma with Some v => v | None => Finite 0.60 end in
  let analyzer := Greeks.init None in
  analyze_loop analyzer data strike sigma [].

End Analyze.

End History.

(** ** Properties of [analyze_historical_greeks] *)

(** The six keys the analysis writes. *)
Definition greek_keys : list string :=
  ["up_price"; "down_price"; "delta"; "gamma"; "theta"; "vega"]%string.

(** [l1] is [l2] with some elements left out, the order kept. *)
Inductive subseq {A : Type} : list A -> list A -> Prop :=
| subseq_nil : subseq [] []
| subseq_skip (x : A) (l1 l2 : list A) : subseq l1 l2 -> subseq l1 (x :: l2)
| subseq_keep (x : A) (l1 l2 : list A) :
    subseq l1 l2 -> subseq (x :: l1) (x :: l2).

(** What a result row [r] holds for the point it was computed from. *)
Definition row_of_point (point r : History.pydict) : Prop :=
  exists (spot : pyfloat) (c : R) (de ga th ve : pyfloat),
    dict_get point "btc_price" (History.VFloat (Finite 0))
    = History.VFloat spot /\
    fgtb spot (Finite 0) = true /\
    (forall (k : string) (default : History.pyval),
        ~ In k greek_keys ->
        dict_get r k default = dict_get point k default) /\
    dict_get r "up_price" History.VNone = History.VFloat (Finite c) /\
    dict_get r "down_price" History.VNone = History.VFloat (Finite (1 - c)) /\
    0 <= c <= 1 /\
    dict_get r "delta" History.VNone = History.VFloat de /\
    dict_get r "gamma" History.VNone = History.VFloat ga /\
    dict_get r "theta" History.VNone = History.VFloat th /\
    dict_get r "vega" History.VNone = History.VFloat ve.

(** A point the analysis leaves out: no positive [btc_price] (a missing one
    counts as 0), or a [time_to_expiry_seconds] that is [None]. *)
Definition left_out (point : History.pydict) : Prop :=
  (exists spot : pyfloat,
      dict_get point "btc_price" (History.VFloat (Finite 0))
      = History.VFloat spot /\
      fgtb spot (Finite 0) = false) \/
  (exists spot : pyfloat,
      dict_get point "btc_price" (History.VFloat (Finite 0))
      = History.VFloat spot /\
      dict_get point "time_to_expiry_seconds" (History.VFloat (Finite 0))
      = History.VNone).

Section HistoryFacts.

Import Pricing Greeks History.
Context `{NormalDist}.

Lemma subseq_length {A : Type} (l1 l2 : list A) :
  subseq l1 l2 -> (length l1 <= length l2)%nat.
Proof. induction 1; simpl; lia. Qed.

(** Lookup after assignment. *)
Lemma dict_get_set_same (d : pydict) (k : string) (v default : pyval) :
  dict_get (dict_set d k v) k default = v.
Proof.
  induction d as [| [k' w] rest IH]; simpl.
  - now rewrite String.eqb_refl.
  - destruct (String.eqb k' k) eqn:Hk; simpl; rewrite Hk; [reflexivity | exact IH].
Qed.

Lemma dict_get_set_other (d : pydict) (k k' : string) (v default : pyval) :
  k <> k' -> dict_get (dict_set d k v) k' default = dict_get d k' default.
Proof.
  intros Hne. induction d as [| [k0 w] rest IH]; simpl.
  - destruct (String.eqb_spec k k'); [contradiction | reflexivity].
  - destruct (String.eqb_spec k0 k) as [-> | Hk0]; simpl.
    + destruct (String.eqb_spec k k'); [contradiction | reflexivity].
    + destruct (String.eqb k0 k'); [reflexivity | exact IH].
Qed.

Lemma dict_get_absent {V : Type} (d : list (string * V)) (k : string)
  (default : V) :
  dict_mem d k = false -> dict_get d k default = default.
Proof.
  induction d as [| [k' w] rest IH]; simpl; [reflexivity |].
  destruct (String.eqb k' k); simpl; [discriminate | exact IH].
Qed.

Lemma with_greeks_other (point : pydict) (g : GreeksSnapshot)
  (k : string) (default : pyval) :
  ~ In k greek_keys ->
  dict_get (with_greeks point g) k default = dict_get point k default.
Proof.
  intros Hk. unfold with_greeks, greek_keys in *. cbn [In] in Hk.
  rewrite !dict_get_set_other
    by (intros <-; apply Hk; repeat (first [left; reflexivity | right])).
  reflexivity.
Qed.

Lemma full_greeks_prices (a : GreeksAnalyzer) (spot strike ttl : pyfloat)
  (sigma : option pyfloat) (g : GreeksSnapshot) :
  full_greeks a spot strike ttl sigma = Ok g ->
  exists c : R,
    snap_up_price g = Finite c /\ snap_down_price g = Finite (1 - c) /\
    0 <= c <= 1.
Proof.
  unfold full_greeks. intros Hg.
  destruct (binary_call_price _ _ _ _ _ _) as [up | e] eqn:Hup;
    [| discriminate].
  destruct (binary_call_price_returns_unit _ _ _ _ _ _ _ Hup) as (c & -> & Hc).
  unfold binary_put_price in Hg. rewrite Hup in Hg. cbn [bind] in Hg.
  destruct (calculate_greeks _ _ _ _ _ _) as [gr | e]; [| discriminate].
  cbn [bind] in Hg. injection Hg as <-. exists c. cbn. repeat split; lra.
Qed.

Lemma with_greeks_row (point : pydict) (a : GreeksAnalyzer)
  (spot strike ttl : pyfloat) (sigma : option pyfloat) (g : GreeksSnapshot) :
  dict_get point "btc_price" (VFloat (Finite 0)) = VFloat spot ->
  fgtb spot (Finite 0) = true ->
  full_greeks a spot strike ttl sigma = Ok g ->
  row_of_point point (with_greeks point g).
Proof.
  intros Hspot Hpos Hg.
  destruct (full_greeks_prices _ _ _ _ _ _ Hg) as (c & Hup & Hdown & Hc).
  exists spot, c, (delta_up g), (gamma_up g), (theta_up g), (vega_up g).
  split; [exact Hspot |]. split; [exact Hpos |].
  split; [intros k default Hk; now apply with_greeks_other |].
  unfold with_greeks.
  repeat (rewrite ?dict_get_set_same;
          rewrite ?dict_get_set_other by discriminate).
  rewrite Hup, Hdown. repeat split; try reflexivity; apply Hc.
Qed.

(** What the loop adds to [results]. *)
Lemma analyze_loop_returns (a : GreeksAnalyzer) (strike sigma : pyfloat)
  (data : list pydict) :
  forall acc results : list pydict,
    analyze_loop a data strike sigma acc = Returns results ->
    exists kept new : list pydict,
      results = acc ++ new /\ subseq kept data /\
      Forall2 row_of_point kept new.
Proof.
  induction data as [| point rest IH]; intros acc results Hres.
  - injection Hres as <-. exists [], []. rewrite app_nil_r.
    repeat split; constructor.
  - cbn [analyze_loop] in Hres.
    destruct (dict_get point "btc_price" _) as [spot | | s] eqn:Hspot;
      try discriminate.
    destruct (fgtb spot (Finite 0)) eqn:Hpos.
    + destruct (dict_get point "time_to_expiry_seconds" _) as [ttl | | s]
        eqn:Httl; try discriminate.
      * destruct (full_greeks a spot strike ttl (Some sigma)) as [g | e]
          eqn:Hg; [| discriminate].
        destruct (IH _ _ Hres) as (kept & new & -> & Hsub & Hrows).
        exists (point :: kept), (with_greeks point g :: new).
        rewrite <- app_assoc. split; [reflexivity |].
        split; [now constructor |]. constructor; [| exact Hrows].
        eapply with_greeks_row; eassumption.
      * destruct (IH _ _ Hres) as (kept & new & -> & Hsub & Hrows).
        exists kept, new. repeat split; [now constructor | exact Hrows].
    + destruct (IH _ _ Hres) as (kept & new & -> & Hsub & Hrows).
      exists kept, new. repeat split; [now constructor | exact Hrows].
Qed.

(** X18.  When [analyze_historical_greeks] returns, its rows stand, in
    order, for the points it kept: each row is its point (every key but the
    six Greek keys unchanged, a positive [btc_price] among them) with an Up
    price of the unit interval, the Down price that completes it to 1, and
    the four Greeks; so there are never more rows than points. *)
Theorem analyzed_rows_extend_points (data : list pydict) (strike : pyfloat)
  (sigma : option pyfloat) (results : list pydict) :
  analyze_historical_greeks data strike sigma = Returns results ->
  (length results <= length data)%nat /\
  exists kept : list pydict,
    subseq kept data /\ Forall2 row_of_point kept results.
Proof.
  unfold analyze_historical_greeks. intros Hres.
  destruct (analyze_loop_returns _ _ _ _ _ _ Hres)
    as (kept & new & -> & Hsub & Hrows).
  cbn [app]. split.
  - rewrite <- (Forall2_length Hrows). now apply subseq_length.
  - exists kept. split; assumption.
Qed.

Lemma analyze_loop_left_out (a : GreeksAnalyzer) (strike sigma : pyfloat)
  (point : pydict) (before after : list pydict) :
  left_out point ->
  forall acc : list pydict,
    analyze_loop a (before ++ point :: after) strike sigma acc
    = analyze_loop a (before ++ after) strike sigma acc.
Proof.
  intros Hout. induction before as [| p rest IH]; intros acc.
  - cbn [app analyze_loop].
    destruct Hout as [(spot & -> & Hspot) | (spot & -> & Httl)].
    + now rewrite Hspot.
    + rewrite Httl. now destruct (fgtb spot (Finite 0)).
  - cbn [app analyze_loop].
    destruct (dict_get p "btc_price" _) as [spot | | s]; try reflexivity.
    destruct (fgtb spot (Finite 0)); [| apply IH].
    destruct (dict_get p "time_to_expiry_seconds" _) as [ttl | | s];
      try reflexivity; [| apply IH].
    destruct (full_greeks a spot strike ttl (Some sigma)); [apply IH | reflexivity].
Qed.

(** X19.  A point without a positive [btc_price] (a missing key counts as
    0) or with [time_to_expiry_seconds] set to [None] is passed over in
    silence: the analysis of the data with the point, wherever it stands,
    is the analysis of the data without it, result or exception. *)
Theorem left_out_points_are_transparent (point : pydict)
  (before after : list pydict) (strike : pyfloat) (sigma : option pyfloat) :
  left_out point \/ dict_mem point "btc_price" = false ->
  analyze_historical_greeks (before ++ point :: after) strike sigma
  = analyze_historical_greeks (before ++ after) strike sigma.
Proof.
  intros Hout. unfold analyze_historical_greeks.
  apply analyze_loop_left_out.
  destruct Hout as [Hout | Hmiss]; [exact Hout |].
  left. exists (Finite 0). split.
  - now apply dict_get_absent.
  - cbn. apply Rltb_false. lra.
Qed.

(** X20.  A point with a positive [btc_price] but no
    [time_to_expiry_seconds] key is analysed as an expired contract, for
    every strike (zero too): its row holds the settled prices and zero
    Greeks. *)
Theorem missing_expiry_is_expired (point : pydict) (spot strike : pyfloat)
  (sigma : option pyfloat) :
  dict_get point "btc_price" (VFloat (Finite 0)) = VFloat spot ->
  fgtb spot (Finite 0) = true ->
  dict_mem point "time_to_expiry_seconds" = false ->
  exists r : pydict,
    analyze_historical_greeks [point] strike sigma = Returns [r] /\
    dict_get r "up_price" VNone
    = VFloat (if fgeb spot strike then Finite 1 else Finite 0) /\
    dict_get r "down_price" VNone
    = VFloat (if fgeb spot strike then Finite 0 else Finite 1) /\
    dict_get r "delta" VNone = VFloat (Finite 0) /\
    dict_get r "gamma" VNone = VFloat (Finite 0) /\
    dict_get r "theta" VNone = VFloat (Finite 0) /\
    dict_get r "vega" VNone = VFloat (Finite 0).
Proof.
  intros Hspot Hpos Hmiss.
  unfold analyze_historical_greeks. cbn [analyze_loop].
  rewrite Hspot, Hpos. rewrite (dict_get_absent _ _ _ Hmiss).
  set (sg := match sigma with Some v => v | None => Finite 0.60 end).
  assert (HT : fleb (Finite 0) (Finite 0) = true) by (apply Rleb_true; lra).
  assert (Hcall : forall s : option pyfloat,
             binary_call_price (pricer (Greeks.init None)) spot strike
               (Finite 0) s (Finite 0)
             = Ok (if fgeb spot strike then Finite 1 else Finite 0))
    by (intros s; now apply binary_call_price_expired).
  unfold full_greeks, binary_put_price. rewrite Hcall. cbn [bind].
  unfold calculate_greeks.
  destruct (expired_in_years _ HT) as (T & -> & HT0).
  cbn [bind]. rewrite HT0. cbn [bind app].
  eexists. split; [reflexivity |]. unfold with_greeks.
  cbn [snap_up_price snap_down_price delta_up gamma_up theta_up vega_up
       g_delta g_gamma g_theta g_vega].
  repeat (rewrite ?dict_get_set_same;
          rewrite ?dict_get_set_other by discriminate).
  destruct (fgeb spot strike); cbn; repeat split; do 2 f_equal; lra.
Qed.

(** X21.  One malformed price loses the whole analysis: a point whose
    [btc_price] is [None] or a string makes [analyze_historical_greeks]
    raise [TypeError] whenever the points before it raise nothing, whatever
    comes after it. *)
Theorem malformed_price_raises (point : pydict) (before after : list pydict)
  (strike : pyfloat) (sigma : option pyfloat) (results : list pydict) :
  (dict_get point "btc_price" (VFloat (Finite 0)) = VNone \/
   exists s : string,
     dict_get point "btc_price" (VFloat (Finite 0)) = VStr s) ->
  analyze_historical_greeks before strike sigma = Returns results ->
  analyze_historical_greeks (before ++ point :: after) strike sigma
  = Raises TypeError.
Proof.
  unfold analyze_historical_greeks. intros Hbad.
  generalize (@nil pydict) as acc. revert results.
  induction before as [| p rest IH]; intros results acc Hres.
  - cbn [app analyze_loop]. destruct Hbad as [-> | (s & ->)]; reflexivity.
  - cbn [app analyze_loop] in Hres |- *.
    destruct (dict_get p "btc_price" _) as [spot | | s]; try discriminate.
    destruct (fgtb spot (Finite 0)); [| now apply (IH results)].
    destruct (dict_get p "time_to_expiry_seconds" _) as [ttl | | s];
      try discriminate; [| now apply (IH results)].
    destruct (full_greeks _ spot strike ttl _); [| discriminate].
    now apply (IH results).
Qed.

End HistoryFacts.

Section HistoryExamples.

Import Pricing Greeks History.

(** A recorded point at expiry, a point without a price, and a point whose
    price is [None]. *)
Definition point_at_expiry : pydict :=
  [("market_id", VStr "0xabc"); ("btc_price", VFloat (Finite 95000));
   ("time_to_expiry_seconds", VFloat (Finite 0))]%string.

Definition point_without_price : pydict :=
  [("market_id", VStr "0xabc");
   ("time_to_expiry_seconds", VFloat (Finite 30))]%string.

Definition point_without_expiry : pydict :=
  [("market_id", VStr "0xabc"); ("btc_price", VFloat (Finite 95000))]%string.

Definition point_with_none_price : pydict :=
  [("btc_price", VNone);
   ("time_to_expiry_seconds", VFloat (Finite 30))]%string.

(** The analysis of a single point at or after expiry returns one row. *)
Lemma analyze_expired_point `{NormalDist} (point : pydict)
  (spot ttl strike : pyfloat) (sigma : option pyfloat) :
  dict_get point "btc_price" (VFloat (Finite 0)) = VFloat spot ->
  fgtb spot (Finite 0) = true ->
  dict_get point "time_to_expiry_seconds" (VFloat (Finite 0)) = VFloat ttl ->
  fleb ttl (Finite 0) = true ->
  exists r : pydict,
    analyze_historical_greeks [point] strike sigma = Returns [r].
Proof.
  intros Hspot Hpos Httl HT.
  unfold analyze_historical_greeks. cbn [analyze_loop].
  rewrite Hspot, Hpos, Httl.
  destruct (greeks_vanish_at_expiry_aux (Greeks.init None) spot strike ttl
              (Some (match sigma with Some v => v | None => Finite 0.60 end))
              HT) as (s & -> & _).
  eexists. reflexivity.
Qed.

End HistoryExamples.

(** X18 on one point recorded at expiry. *)
Lemma analyzed_rows_extend_points_witness :
  exists r : History.pydict,
    History.analyze_historical_greeks (H := StdNormal.std_normal)
      [point_at_expiry] (Finite 95000) None = History.Returns [r] /\
    (length [r] <= length [point_at_expiry])%nat /\
    exists kept : list History.pydict,
      subseq kept [point_at_expiry] /\ Forall2 row_of_point kept [r].
Proof.
  destruct (analyze_expired_point (H := StdNormal.std_normal) point_at_expiry
              (Finite 95000) (Finite 0) (Finite 95000) None) as (r & Hr);
    try reflexivity; [apply Rltb_true; lra | apply Rleb_true; lra |].
  exists r. split; [exact Hr |].
  exact (analyzed_rows_extend_points (H := StdNormal.std_normal)
           [point_at_expiry] (Finite 95000) None [r] Hr).
Defined.

(** X19 on a point without a price, between two others. *)
Lemma left_out_points_are_transparent_witness :
  History.analyze_historical_greeks (H := StdNormal.std_normal)
    ([point_at_expiry] ++ point_without_price :: [point_without_expiry])
    (Finite 95000) None
  = History.analyze_historical_greeks (H := StdNormal.std_normal)
      ([point_at_expiry] ++ [point_without_expiry]) (Finite 95000) None.
Proof.
  apply (left_out_points_are_transparent (H := StdNormal.std_normal)
           point_without_price [point_at_expiry] [point_without_expiry]).
  right. reflexivity.
Defined.

(** X20 on a point recorded without its time to expiry. *)
Lemma missing_expiry_is_expired_witness :
  exists r : History.pydict,
    History.analyze_historical_greeks (H := StdNormal.std_normal)
      [point_without_expiry] (Finite 95000) None = History.Returns [r] /\
    dict_get r "up_price" History.VNone = History.VFloat (Finite 1) /\
    dict_get r "delta" History.VNone = History.VFloat (Finite 0).
Proof.
  destruct (missing_expiry_is_expired (H := StdNormal.std_normal)
              point_without_expiry (Finite 95000) (Finite 95000) None)
    as (r & Hr & Hup & _ & Hdelta & _);
    try reflexivity; [apply Rltb_true; lra |].
  exists r. split; [exact Hr |]. split; [| exact Hdelta].
  rewrite Hup. cbn [fgeb fleb]. now rewrite Rleb_true by lra.
Defined.

(** X21 on a point whose price is [None], after a good point. *)
Lemma malformed_price_raises_witness :
  History.analyze_historical_greeks (H := StdNormal.std_normal)
    ([point_at_expiry] ++ point_with_none_price :: [point_without_expiry])
    (Finite 95000) None
  = History.Raises History.TypeError.
Proof.
  destruct (analyze_expired_point (H := StdNormal.std_normal) point_at_expiry
              (Finite 95000) (Finite 0) (Finite 95000) None) as (r & Hr);
    try reflexivity; [apply Rltb_true; lra | apply Rleb_true; lra |].
  apply (malformed_price_raises (H := StdNormal.std_normal)
           point_with_none_price [point_at_expiry] [point_without_expiry]
           (Finite 95000) None [r]); [left; reflexivity | exact Hr].
Defined.

(** ** src/models/greeks.py: the surfaces

    [delta_surface], [gamma_surface] and [price_surface] evaluate the pricer
    on a grid built with numpy.  A numpy array is a list of floats (a list
    of rows for a two-dimensional one), and a cell of the grid is a numpy
    scalar: a quotient with a cell in it is an IEEE 754 division. *)

Module Surfaces.

Import Greeks.
Local Open Scope pyfloat_scope.

(** [y[-1] = stop]. *)
Definition set_last (y : list pyfloat) (stop : pyfloat) : list pyfloat :=
  match y with
  | [] => []
  | _ :: _ => removelast y ++ [stop]
  end.

(** [numpy.linspace(start, stop, num)] on two floats, as numpy computes it:
    [arange(0, num)] times the step plus [start], the last sample then set
    to [stop]; a negative [num] raises [ValueError]. *)
Definition np_linspace (start stop : pyfloat) (num : Z)
  : result (list pyfloat) :=
  if (num <? 0)%Z then Raise ValueError
  else
    let div := (num - 1)%Z in
    let delta := stop - start in
    let y := map (fun i : nat => Finite (INR i)) (seq 0 (Z.to_nat num)) in
    let y :=
      if (0 <? div)%Z then
        let step := delta /. Finite (IZR div) in
        if feqb step 0 then
          map (fun v : pyfloat => v /. Finite (IZR div) * delta) y
        else map (fun v : pyfloat => v * step) y
      else map (fun v : pyfloat => v * delta) y in
    let y := map (fun v : pyfloat => v + start) y in
    Ok (if (1 <? num)%Z then set_last y stop else y).

(** A loop that fills one axis of an array: the cells in order, the first
    exception ending it. *)
Fixpoint for_each {A B : Type} (f : A -> result B) (l : list A)
  : result (list B) :=
  match l with
  | [] => Ok []
  | a :: l' => b <- f a ;; bs <- for_each f l' ;; Ok (b :: bs)
  end.

Section NumpyScalars.

Context `{NormalDist}.
Variable self : BinaryOptionPricer.

(** The methods of the pricer on a spot and a time that are numpy scalars:
    [S / K] and the quotient of [d1] no longer raise on a zero divisor. *)
Definition _calculate_d1_d2_np (S K T sigma r : pyfloat)
  : result (pyfloat * pyfloat) :=
  if T <=? 0 then
    if S >=? K then Ok (PosInf, PosInf) else Ok (NegInf, NegInf)
  else
    let sigma := if sigma <=? 0 then Finite 0.0001 else sigma in
    sqrt_T <- math_sqrt T ;;
    log_S_K <- math_log (S /. K) ;;
    let d1 := (log_S_K + (r + 0.5 * fsquare sigma) * T) /. (sigma * sqrt_T) in
    let d2 := d1 - sigma * sqrt_T in
    Ok (d1, d2).

Definition binary_call_price_np (S K T_seconds : pyfloat)
  (sigma : option pyfloat) (r : pyfloat) : result pyfloat :=
  let sigma := or_default self sigma in
  let T := T_seconds /. SECONDS_PER_YEAR in
  if T <=? 0 then
    Ok (if S >=? K then Finite 1 else Finite 0)
  else
    d <- _calculate_d1_d2_np S K T sigma r ;;
    let d2 := snd d in
    let price := norm_cdf d2 in
    Ok (py_max 0 (py_min 1 price)).

Definition calculate_greeks_np (S K T_seconds : pyfloat)
  (sigma : option pyfloat) (r : pyfloat) : result GreeksDict :=
  let sigma := or_default self sigma in
  let T := T_seconds /. SECONDS_PER_YEAR in
  if T <=? 0 then
    Ok {| g_delta := 0; g_gamma := 0; g_theta := 0; g_vega := 0 |}
  else
    d <- _calculate_d1_d2_np S K T sigma r ;;
    let d1 := fst d in
    let d2 := snd d in
    sqrt_T <- math_sqrt T ;;
    let n_d2 := norm_pdf d2 in
    let delta := n_d2 /. (S * sigma * sqrt_T) in
    let gamma := (- n_d2) * d1 /. (fsquare S * fsquare sigma * T) in
    let theta_annual := n_d2 * d1 /. (2 * T * sigma * sqrt_T) in
    let theta_per_second := (- theta_annual) /. SECONDS_PER_YEAR in
    let vega := (- n_d2) * d1 * sqrt_T /. sigma in
    Ok {| g_delta := delta; g_gamma := gamma;
          g_theta := theta_per_second; g_vega := vega |}.

End NumpyScalars.

(** What a surface returns: [(spots, times, values)], [values[i][j]] being
    the value at [times[i]] and [spots[j]]. *)
Definition surface : Type :=
  (list pyfloat * list pyfloat * list (list pyfloat))%type.

Section Methods.

Context `{NormalDist}.
Variable self : GreeksAnalyzer.

Definition delta_surface (strike : pyfloat)
  (spot_range time_range : pyfloat * pyfloat) (spot_steps time_steps : Z)
  (sigma : option pyfloat) : result surface :=
  let sigma := or_default (pricer self) sigma in
  spots <- np_linspace (fst spot_range) (snd spot_range) spot_steps ;;
  times <- np_linspace (fst time_range) (snd time_range) time_steps ;;
  deltas <-
    for_each (fun t =>
      for_each (fun s =>
        greeks <- calculate_greeks_np (pricer self) s strike t (Some sigma) 0 ;;
        Ok (g_delta greeks)) spots) times ;;
  Ok (spots, times, deltas).

Definition gamma_surface (strike : pyfloat)
  (spot_range time_range : pyfloat * pyfloat) (spot_steps time_steps : Z)
  (sigma : option pyfloat) : result surface :=
  let sigma := or_default (pricer self) sigma in
  spots <- np_linspace (fst spot_range) (snd spot_range) spot_steps ;;
  times <- np_linspace (fst time_range) (snd time_range) time_steps ;;
  gammas <-
    for_each (fun t =>
      for_each (fun s =>
        greeks <- calculate_greeks_np (pricer self) s strike t (Some sigma) 0 ;;
        Ok (g_gamma greeks)) spots) times ;;
  Ok (spots, times, gammas).

Definition price_surface (strike : pyfloat)
  (spot_range time_range : pyfloat * pyfloat) (spot_steps time_steps : Z)
  (sigma : option pyfloat) : result surface :=
  let sigma := or_default (pricer self) sigma in
  spots <- np_linspace (fst spot_range) (snd spot_range) spot_steps ;;
  times <- np_linspace (fst time_range) (snd time_range) time_steps ;;
  prices <-
    for_each (fun t =>
      for_each (fun s =>
        binary_call_price_np (pricer self) s strike t (Some sigma) 0)
        spots) times ;;
  Ok (spots, times, prices).

End Methods.

(** The default of [spot_steps] and [time_steps]. *)
Definition default_steps : Z := 50.

End Surfaces.

Import Surfaces.

(** ** The grid of a surface *)

Lemma set_last_snoc (l : list pyfloat) (x v : pyfloat) :
  set_last (l ++ [x]) v = l ++ [v].
Proof.
  unfold set_last. destruct (l ++ [x]) eqn:E.
  - now destruct l.
  - rewrite <- E. now rewrite removelast_last.
Qed.

(** The samples of [linspace] between two finite ends, as real numbers. *)
Definition samples (a b : R) (num : Z) : list R :=
  if (num <=? 1)%Z then map (fun _ : nat => a) (seq 0 (Z.to_nat num))
  else
    map (fun i : nat => a + INR i * ((b - a) / IZR (num - 1)))
      (seq 0 (Z.to_nat (num - 1))) ++ [b].

Lemma np_linspace_finite (a b : R) (num : Z) :
  (0 <= num)%Z ->
  np_linspace (Finite a) (Finite b) num = Ok (map Finite (samples a b num)).
Proof.
  intros Hnum. unfold np_linspace, samples.
  rewrite (proj2 (Z.ltb_ge num 0)) by assumption.
  cbn [fsub fneg fadd].
  destruct (Z.leb_spec num 1) as [H1 | H1].
  - rewrite (proj2 (Z.ltb_ge 0 (num - 1))) by lia.
    rewrite (proj2 (Z.ltb_ge 1 num)) by lia.
    rewrite !map_map. f_equal.
    assert (Hn : (Z.to_nat num <= 1)%nat) by lia.
    destruct (Z.to_nat num) as [| [| n]]; [reflexivity | | lia].
    cbn. do 2 f_equal. ring.
  - rewrite (proj2 (Z.ltb_lt 0 (num - 1))) by lia.
    rewrite (proj2 (Z.ltb_lt 1 num)) by lia.
    assert (Hd : IZR (num - 1) <> 0).
    { apply not_0_IZR. lia. }
    replace (Z.to_nat num) with (S (Z.to_nat (num - 1))) by lia.
    rewrite seq_S, Nat.add_0_l.
    rewrite np_div_finite by assumption.
    set (m := Z.to_nat (num - 1)).
    destruct (feqb _ _); rewrite !map_app, !map_map; cbn [map];
      rewrite set_last_snoc; do 2 f_equal;
      apply map_ext; intros i; cbn [fmul fadd];
      rewrite ?np_div_finite by assumption; cbn [fmul fadd];
      f_equal; field; assumption.
Qed.

Lemma samples_length (a b : R) (num : Z) :
  (0 <= num)%Z -> length (samples a b num) = Z.to_nat num.
Proof.
  intros Hnum. unfold samples. destruct (Z.leb_spec num 1).
  - now rewrite length_map, length_seq.
  - rewrite length_app, length_map, length_seq. cbn [length]. lia.
Qed.

(** The first sample is [start]. *)
Lemma samples_head (a b : R) (num : Z) :
  (1 <= num)%Z -> exists tl : list R, samples a b num = a :: tl.
Proof.
  intros Hnum. unfold samples. destruct (Z.leb_spec num 1).
  - replace num with 1%Z by lia. now exists [].
  - destruct (Z.to_nat (num - 1)) as [| m] eqn:Hm; [lia |].
    cbn [seq map app]. eexists. f_equal. cbn [INR]. ring.
Qed.

Lemma sample_between (a b d : R) (i : nat) :
  a <= b -> 0 < d -> INR i <= d ->
  a <= a + INR i * ((b - a) / d) <= b.
Proof.
  intros Hab Hd Hi. pose proof (pos_INR i) as Hi0.
  assert (Hq : 0 <= (b - a) / d).
  { unfold Rdiv. apply Rmult_le_pos; [lra |].
    left. now apply Rinv_0_lt_compat. }
  assert (Hdq : d * ((b - a) / d) = b - a) by (field; lra).
  split; [nra |]. nra.
Qed.

Lemma index_below (num : Z) (i : nat) :
  (i < Z.to_nat (num - 1))%nat -> INR i <= IZR (num - 1).
Proof.
  intros Hi. rewrite INR_IZR_INZ. apply IZR_le. lia.
Qed.

(** Between ordered ends every sample lies between them. *)
Lemma samples_range (a b : R) (num : Z) :
  a <= b -> Forall (fun x => a <= x <= b) (samples a b num).
Proof.
  intros Hab. unfold samples. destruct (Z.leb_spec num 1) as [H1 | H1].
  - apply Forall_forall. intros x Hx. apply in_map_iff in Hx.
    destruct Hx as (i & <- & _). lra.
  - apply Forall_app. split; [| constructor; [lra | constructor]].
    apply Forall_forall. intros x Hx. apply in_map_iff in Hx.
    destruct Hx as (i & <- & Hi). apply in_seq in Hi.
    apply sample_between; [assumption | apply IZR_lt; lia |].
    apply index_below. lia.
Qed.






(** ** The cells of a surface *)

Section Cells.

Context `{NormalDist}.
Variable self : BinaryOptionPricer.




(** The early returns, reached before any division by the strike. *)
Lemma np_cells_expired (S K T_seconds : pyfloat) (sigma : option pyfloat)
  (r : pyfloat) :
  fleb T_seconds (Finite 0) = true ->
  binary_call_price_np self S K T_seconds sigma r
  = Ok (if fgeb S K then Finite 1 else Finite 0) /\
  calculate_greeks_np self S K T_seconds sigma r
  = Ok {| g_delta := Finite 0; g_gamma := Finite 0;
          g_theta := Finite 0; g_vega := Finite 0 |}.
Proof.
  intros HT. destruct (expired_in_years _ HT) as (T & HTy & HT0).
  rewrite to_years in HTy. injection HTy as <-.
  unfold binary_call_price_np, calculate_greeks_np. now rewrite HT0.
Qed.

(** Before expiry a spot that is not positive has no logarithm. *)
Lemma np_cells_raise (S K T_seconds : R) (sigma : option pyfloat)
  (r : pyfloat) :
  S <= 0 -> 0 < K -> 0 < T_seconds ->
  binary_call_price_np self (Finite S) (Finite K) (Finite T_seconds) sigma r
  = Raise ValueError /\
  calculate_greeks_np self (Finite S) (Finite K) (Finite T_seconds) sigma r
  = Raise ValueError.
Proof.
  intros HS HK HT. pose proof (years_pos _ HT) as HTy.
  assert (Hd : _calculate_d1_d2_np (Finite S) (Finite K)
                 (Finite (years T_seconds)) (or_default self sigma) r
               = Raise ValueError).
  { unfold _calculate_d1_d2_np. cbn [fleb].
    rewrite Rleb_false by assumption. cbn [math_sqrt].
    rewrite Rleb_true by lra. cbn [bind].
    rewrite np_div_finite by lra. cbn [math_log].
    rewrite Rltb_false; [reflexivity |].
    unfold Rdiv. assert (0 < / K) by now apply Rinv_0_lt_compat. nra. }
  unfold binary_call_price_np, calculate_greeks_np, SECONDS_PER_YEAR.
  rewrite np_div_finite by lra. fold (years T_seconds). cbn [fleb].
  rewrite Rleb_false by assumption. rewrite Hd. split; reflexivity.
Qed.

End Cells.



Section SurfaceFacts.

Import Greeks.
Context `{NormalDist}.
Variable self : GreeksAnalyzer.






End SurfaceFacts.

(** A loop over finite samples whose every cell returns. *)
Lemma for_each_samples {B : Type} (f : pyfloat -> result B) (g : R -> B)
  (l : list R) :
  Forall (fun x => f (Finite x) = Ok (g x)) l ->
  for_each f (map Finite l) = Ok (map g l).
Proof.
  induction 1 as [| a l Ha _ IH]; cbn [for_each map]; [reflexivity |].
  rewrite Ha, IH. reflexivity.
Qed.

Section SurfaceTheorems.

Import Greeks.
Context `{NormalDist}.
Variable self : GreeksAnalyzer.


(** X23.  A grid that starts at a spot that is not positive, at a time
    before expiry, has no surface: for a positive strike the first cell
    raises [ValueError] (the logarithm of [S / K]), so each of the three
    surfaces does, whatever the other ends of the ranges and the
    volatility. *)
Theorem surfaces_raise_on_nonpositive_spot (K lo hi tlo thi : R)
  (spot_steps time_steps : Z) (sigma : option pyfloat) :
  0 < K -> lo <= 0 -> 0 < tlo ->
  (1 <= spot_steps)%Z -> (1 <= time_steps)%Z ->
  price_surface self (Finite K) (Finite lo, Finite hi)
    (Finite tlo, Finite thi) spot_steps time_steps sigma
  = Raise ValueError /\
  delta_surface self (Finite K) (Finite lo, Finite hi)
    (Finite tlo, Finite thi) spot_steps time_steps sigma
  = Raise ValueError /\
  gamma_surface self (Finite K) (Finite lo, Finite hi)
    (Finite tlo, Finite thi) spot_steps time_steps sigma
  = Raise ValueError.
Proof.
  intros HK Hlo Htlo Hss Hts.
  destruct (samples_head lo hi spot_steps Hss) as (spots & Hspots).
  destruct (samples_head tlo thi time_steps Hts) as (times & Htimes).
  destruct (np_cells_raise (pricer self) lo K tlo
              (Some (or_default (pricer self) sigma)) (Finite 0)
              Hlo HK Htlo) as [Hp Hg].
  unfold price_surface, delta_surface, gamma_surface. cbn [fst snd].
  rewrite !np_linspace_finite by lia. rewrite Hspots, Htimes.
  cbn [bind map for_each]. rewrite Hp, Hg. repeat split; reflexivity.
Qed.


(** X25.  A time range that ends at or after expiry never raises: for any
    finite spot range (in either order, spots that are not positive too),
    any strike (zero, infinite or [nan]) and any volatility, the delta and
    gamma surfaces are all zeros and the price surface is the payoff, 1
    where the spot is at or above the strike and 0 elsewhere. *)
Theorem surfaces_settled_after_expiry (K : pyfloat) (lo hi tlo thi : R)
  (spot_steps time_steps : Z) (sigma : option pyfloat) :
  tlo <= thi -> thi <= 0 ->
  (0 <= spot_steps)%Z -> (0 <= time_steps)%Z ->
  exists spots times : list R,
    length spots = Z.to_nat spot_steps /\
    length times = Z.to_nat time_steps /\
    delta_surface self K (Finite lo, Finite hi) (Finite tlo, Finite thi)
      spot_steps time_steps sigma
    = Ok (map Finite spots, map Finite times,
          map (fun _ => map (fun _ => Finite 0) spots) times) /\
    gamma_surface self K (Finite lo, Finite hi) (Finite tlo, Finite thi)
      spot_steps time_steps sigma
    = Ok (map Finite spots, map Finite times,
          map (fun _ => map (fun _ => Finite 0) spots) times) /\
    price_surface self K (Finite lo, Finite hi) (Finite tlo, Finite thi)
      spot_steps time_steps sigma
    = Ok (map Finite spots, map Finite times,
          map (fun _ =>
                 map (fun s =>
                        if fgeb (Finite s) K then Finite 1 else Finite 0)
                   spots) times).
Proof.
  intros Ht Hthi Hss Hts.
  pose proof (samples_range tlo thi time_steps Ht) as Hrange.
  set (times := samples tlo thi time_steps) in *.
  set (spots := samples lo hi spot_steps).
  exists spots, times.
  split; [now apply samples_length |]. split; [now apply samples_length |].
  assert (Hcell : forall t s : R, In t times ->
            binary_call_price_np (pricer self) (Finite s) K (Finite t)
              (Some (or_default (pricer self) sigma)) (Finite 0)
            = Ok (if fgeb (Finite s) K then Finite 1 else Finite 0) /\
            calculate_greeks_np (pricer self) (Finite s) K (Finite t)
              (Some (or_default (pricer self) sigma)) (Finite 0)
            = Ok {| g_delta := Finite 0; g_gamma := Finite 0;
                    g_theta := Finite 0; g_vega := Finite 0 |}).
  { intros t s Hin. rewrite Forall_forall in Hrange.
    specialize (Hrange t Hin). apply np_cells_expired.
    apply Rleb_true. lra. }
  unfold delta_surface, gamma_surface, price_surface. cbn [fst snd].
  rewrite !np_linspace_finite by assumption. cbn [bind].
  fold spots times.
  rewrite (for_each_samples _ (fun _ => map (fun _ => Finite 0) spots));
    [| apply Forall_forall; intros t Ht'; apply for_each_samples;
       apply Forall_forall; intros s _;
       destruct (Hcell t s Ht') as [_ ->]; reflexivity].
  rewrite (for_each_samples _ (fun _ => map (fun _ => Finite 0) spots));
    [| apply Forall_forall; intros t Ht'; apply for_each_samples;
       apply Forall_forall; intros s _;
       destruct (Hcell t s Ht') as [_ ->]; reflexivity].
  rewrite (for_each_samples _
             (fun _ => map (fun s => if fgeb (Finite s) K
                                     then Finite 1 else Finite 0) spots));
    [| apply Forall_forall; intros t Ht'; apply for_each_samples;
       apply Forall_forall; intros s _;
       destruct (Hcell t s Ht') as [-> _]; reflexivity].
  cbn [bind]. repeat split; reflexivity.
Qed.

End SurfaceTheorems.


(** X23 on a spot range that starts at 0. *)
Lemma surfaces_raise_on_nonpositive_spot_witness :
  price_surface (H := StdNormal.std_normal) (Greeks.init None)
    (Finite 95000) (Finite 0, Finite 96900) (Finite 1, Finite 900)
    default_steps default_steps None
  = Raise ValueError /\
  delta_surface (H := StdNormal.std_normal) (Greeks.init None)
    (Finite 95000) (Finite 0, Finite 96900) (Finite 1, Finite 900)
    default_steps default_steps None
  = Raise ValueError /\
  gamma_surface (H := StdNormal.std_normal) (Greeks.init None)
    (Finite 95000) (Finite 0, Finite 96900) (Finite 1, Finite 900)
    default_steps default_steps None
  = Raise ValueError.
Proof.
  apply (surfaces_raise_on_nonpositive_spot (H := StdNormal.std_normal)
           (Greeks.init None) 95000 0 96900 1 900
           default_steps default_steps None);
    [lra | lra | lra | unfold default_steps; lia ..].
Defined.


(** X25 on the fifteen minutes after expiry, with a zero strike and a spot
    range that crosses 0. *)
Lemma surfaces_settled_after_expiry_witness :
  exists spots times : list R,
    length spots = Z.to_nat default_steps /\
    length times = Z.to_nat default_steps /\
    delta_surface (H := StdNormal.std_normal) (Greeks.init None)
      (Finite 0) (Finite (-100), Finite 100) (Finite (-900), Finite 0)
      default_steps default_steps None
    = Ok (map Finite spots, map Finite times,
          map (fun _ => map (fun _ => Finite 0) spots) times) /\
    gamma_surface (H := StdNormal.std_normal) (Greeks.init None)
      (Finite 0) (Finite (-100), Finite 100) (Finite (-900), Finite 0)
      default_steps default_steps None
    = Ok (map Finite spots, map Finite times,
          map (fun _ => map (fun _ => Finite 0) spots) times) /\
    price_surface (H := StdNormal.std_normal) (Greeks.init None)
      (Finite 0) (Finite (-100), Finite 100) (Finite (-900), Finite 0)
      default_steps default_steps None
    = Ok (map Finite spots, map Finite times,
          map (fun _ =>
                 map (fun s =>
                        if fgeb (Finite s) (Finite 0)
                        then Finite 1 else Finite 0)
                   spots) times).
Proof.
  apply (surfaces_settled_after_expiry (H := StdNormal.std_normal)
           (Greeks.init None) (Finite 0) (-100) 100 (-900) 0
           default_steps default_steps None);
    [lra | lra | unfold default_steps; lia ..].
Defined.
